(** * Soldering-station control loop (cxg-60ewt, [main.c]) in Rocq

    A shallow embedding of [src/main.c]: the control loop of an STM8
    soldering-iron station compiled with SDCC ([int] is 16 bits wide,
    [long] 32 bits).  Globals and function-level statics become the fields
    of one [state] record; the peripheral drivers ([pwm.h], [s7c.h],
    [adc.h], [eeprom.h], [clock.h], [stm8s_pins.h]) are outside the file:
    what the loop reads from them is an [input], what it asks of them is a
    list of [event]s. *)

From Stdlib Require Import ZArith List Bool Lia String.
Import ListNotations.
Local Open Scope Z_scope.

(** ** Machine integers

    Values are mathematical integers; every C operation is followed by the
    conversion to the type the C expression has. *)

Definition uint8 (z : Z) : Z := z mod 256.
Definition uint16 (z : Z) : Z := z mod 65536.
Definition uint32 (z : Z) : Z := z mod 4294967296.

(** Conversion to [int16_t] (SDCC keeps the low 16 bits, two's complement). *)
Definition int16 (z : Z) : Z := (z + 32768) mod 65536 - 32768.

(** ** Constants of [main.c] *)

Inductive SleepState : Set := NOSLEEP | SLEEP | DEEPSLEEP.

Definition SleepState_eqb (a b : SleepState) : bool :=
  match a, b with
  | NOSLEEP, NOSLEEP | SLEEP, SLEEP | DEEPSLEEP, DEEPSLEEP => true
  | _, _ => false
  end.

(** The enumerators are 0, 1, 2; [sleep && ...] tests for a non-zero one. *)
Definition SleepState_to_Z (a : SleepState) : Z :=
  match a with NOSLEEP => 0 | SLEEP => 1 | DEEPSLEEP => 2 end.

Definition SHORT_PRESS : Z := 700.
Definition LONG_PRESS : Z := 1800.
Definition FAST_INCREMENT : Z := 40.
Definition MIN_HEAT : Z := 50.
Definition MAX_HEAT : Z := 450.
Definition EEPROM_SAVE_TIMEOUT : Z := 2000.
Definition HEATPOINT_DISPLAY_DELAY : Z := 5000.
Definition SLEEP_TEMP : Z := 100.
Definition MAX_ADC_RT : Z := 130.
Definition MIN_ADC_RT : Z := 40.

(** Modelled from the spec: the pin levels [LOW] and [HIGH] of
    [stm8s_pins.h], which is not under src/.  The spec has buttons
    active-low, and [checkButton]'s result is tested with [!action] for
    "no button active", so [LOW] is the zero level and [HIGH] the
    non-zero one. *)
Definition LOW : Z := 0.
Definition HIGH : Z := 1.

(** The symbol masks of [s7c.h] are not under src/ either; nothing in the
    loop depends on their values, so they are parameters of the model. *)
Class S7C_symbols : Set := {
  SYM_CELS : Z;
  SYM_TEMP : Z;
  SYM_MOON : Z;
  SYM_SUN : Z;
  SYM_SAVE : Z
}.

(** ** Data *)

Record EEPROM_DATA : Set := {
  heatPoint : Z;          (* uint16_t *)
  sleepTimeout : Z;       (* uint32_t *)
  deepSleepTimeout : Z    (* uint32_t *)
}.

(** File-scope variables, then the [static] locals of [mainLoop],
    [checkSleep] and [checkButton]. *)
Record state : Set := {
  _sleepTimer : Z;
  _buttonTimer : Z;
  _longPressTimer : Z;
  _haveToSaveData : Z;
  _heatPointDisplayTime : Z;
  _eepromData : EEPROM_DATA;
  oldSleep : SleepState;
  oldADCVal : Z;
  oldADCUI : Z;
  localCnt : Z;
  oldDisplayValue : Z;
  oldSensorState : Z;
  skipCounter : Z
}.

Inductive pin : Set := PB5 | PB6 | PB7 | PD4.
Inductive adc_channel : Set := ADC1_CSR_CH0 | ADC1_CSR_CH1.
Inductive pwm_channel : Set := PWM_CH1.
Inductive eeprom_addr : Set := EEPROM_START_ADDR.

(** What the drivers answer during one pass of the loop. *)
Record input : Type := {
  currentMillis : Z;
  ADC_read : adc_channel -> Z;
  getPin : pin -> Z
}.

(** What the loop asks of the drivers. *)
Inductive event : Set :=
| PWM_init (ch : pwm_channel)
| PWM_duty (ch : pwm_channel) (duty : Z)
| CLK_CKDIVR_write (v : Z)
| disable_interrupts
| TIM4_init
| enable_interrupts
| pinMode_output (p : pin)
| S7C_init
| S7C_setChars (chars : string)
| S7C_setDigit (pos value : Z)
| S7C_setSymbol (pos sym : Z)
| S7C_refreshDisplay (nowTime : Z)
| beep
| beepAlarm
| eeprom_write (addr : eeprom_addr) (data : EEPROM_DATA)
| delay_ms (ms : Z).

(** ** Field updates *)

Definition set_heatPoint (v : Z) (d : EEPROM_DATA) : EEPROM_DATA :=
  {| heatPoint := v; sleepTimeout := sleepTimeout d;
     deepSleepTimeout := deepSleepTimeout d |}.

Definition set__sleepTimer (v : Z) (s : state) : state :=
  {| _sleepTimer := v; _buttonTimer := _buttonTimer s;
     _longPressTimer := _longPressTimer s; _haveToSaveData := _haveToSaveData s;
     _heatPointDisplayTime := _heatPointDisplayTime s; _eepromData := _eepromData s;
     oldSleep := oldSleep s; oldADCVal := oldADCVal s; oldADCUI := oldADCUI s;
     localCnt := localCnt s; oldDisplayValue := oldDisplayValue s;
     oldSensorState := oldSensorState s; skipCounter := skipCounter s |}.

Definition set__buttonTimer (v : Z) (s : state) : state :=
  {| _sleepTimer := _sleepTimer s; _buttonTimer := v;
     _longPressTimer := _longPressTimer s; _haveToSaveData := _haveToSaveData s;
     _heatPointDisplayTime := _heatPointDisplayTime s; _eepromData := _eepromData s;
     oldSleep := oldSleep s; oldADCVal := oldADCVal s; oldADCUI := oldADCUI s;
     localCnt := localCnt s; oldDisplayValue := oldDisplayValue s;
     oldSensorState := oldSensorState s; skipCounter := skipCounter s |}.

Definition set__longPressTimer (v : Z) (s : state) : state :=
  {| _sleepTimer := _sleepTimer s; _buttonTimer := _buttonTimer s;
     _longPressTimer := v; _haveToSaveData := _haveToSaveData s;
     _heatPointDisplayTime := _heatPointDisplayTime s; _eepromData := _eepromData s;
     oldSleep := oldSleep s; oldADCVal := oldADCVal s; oldADCUI := oldADCUI s;
     localCnt := localCnt s; oldDisplayValue := oldDisplayValue s;
     oldSensorState := oldSensorState s; skipCounter := skipCounter s |}.

Definition set__haveToSaveData (v : Z) (s : state) : state :=
  {| _sleepTimer := _sleepTimer s; _buttonTimer := _buttonTimer s;
     _longPressTimer := _longPressTimer s; _haveToSaveData := v;
     _heatPointDisplayTime := _heatPointDisplayTime s; _eepromData := _eepromData s;
     oldSleep := oldSleep s; oldADCVal := oldADCVal s; oldADCUI := oldADCUI s;
     localCnt := localCnt s; oldDisplayValue := oldDisplayValue s;
     oldSensorState := oldSensorState s; skipCounter := skipCounter s |}.

Definition set__heatPointDisplayTime (v : Z) (s : state) : state :=
  {| _sleepTimer := _sleepTimer s; _buttonTimer := _buttonTimer s;
     _longPressTimer := _longPressTimer s; _haveToSaveData := _haveToSaveData s;
     _heatPointDisplayTime := v; _eepromData := _eepromData s;
     oldSleep := oldSleep s; oldADCVal := oldADCVal s; oldADCUI := oldADCUI s;
     localCnt := localCnt s; oldDisplayValue := oldDisplayValue s;
     oldSensorState := oldSensorState s; skipCounter := skipCounter s |}.

Definition set__eepromData (v : EEPROM_DATA) (s : state) : state :=
  {| _sleepTimer := _sleepTimer s; _buttonTimer := _buttonTimer s;
     _longPressTimer := _longPressTimer s; _haveToSaveData := _haveToSaveData s;
     _heatPointDisplayTime := _heatPointDisplayTime s; _eepromData := v;
     oldSleep := oldSleep s; oldADCVal := oldADCVal s; oldADCUI := oldADCUI s;
     localCnt := localCnt s; oldDisplayValue := oldDisplayValue s;
     oldSensorState := oldSensorState s; skipCounter := skipCounter s |}.

Definition set_oldSleep (v : SleepState) (s : state) : state :=
  {| _sleepTimer := _sleepTimer s; _buttonTimer := _buttonTimer s;
     _longPressTimer := _longPressTimer s; _haveToSaveData := _haveToSaveData s;
     _heatPointDisplayTime := _heatPointDisplayTime s; _eepromData := _eepromData s;
     oldSleep := v; oldADCVal := oldADCVal s; oldADCUI := oldADCUI s;
     localCnt := localCnt s; oldDisplayValue := oldDisplayValue s;
     oldSensorState := oldSensorState s; skipCounter := skipCounter s |}.

Definition set_oldADCVal (v : Z) (s : state) : state :=
  {| _sleepTimer := _sleepTimer s; _buttonTimer := _buttonTimer s;
     _longPressTimer := _longPressTimer s; _haveToSaveData := _haveToSaveData s;
     _heatPointDisplayTime := _heatPointDisplayTime s; _eepromData := _eepromData s;
     oldSleep := oldSleep s; oldADCVal := v; oldADCUI := oldADCUI s;
     localCnt := localCnt s; oldDisplayValue := oldDisplayValue s;
     oldSensorState := oldSensorState s; skipCounter := skipCounter s |}.

Definition set_oldADCUI (v : Z) (s : state) : state :=
  {| _sleepTimer := _sleepTimer s; _buttonTimer := _buttonTimer s;
     _longPressTimer := _longPressTimer s; _haveToSaveData := _haveToSaveData s;
     _heatPointDisplayTime := _heatPointDisplayTime s; _eepromData := _eepromData s;
     oldSleep := oldSleep s; oldADCVal := oldADCVal s; oldADCUI := v;
     localCnt := localCnt s; oldDisplayValue := oldDisplayValue s;
     oldSensorState := oldSensorState s; skipCounter := skipCounter s |}.

Definition set_localCnt (v : Z) (s : state) : state :=
  {| _sleepTimer := _sleepTimer s; _buttonTimer := _buttonTimer s;
     _longPressTimer := _longPressTimer s; _haveToSaveData := _haveToSaveData s;
     _heatPointDisplayTime := _heatPointDisplayTime s; _eepromData := _eepromData s;
     oldSleep := oldSleep s; oldADCVal := oldADCVal s; oldADCUI := oldADCUI s;
     localCnt := v; oldDisplayValue := oldDisplayValue s;
     oldSensorState := oldSensorState s; skipCounter := skipCounter s |}.

Definition set_oldSensorState (v : Z) (s : state) : state :=
  {| _sleepTimer := _sleepTimer s; _buttonTimer := _buttonTimer s;
     _longPressTimer := _longPressTimer s; _haveToSaveData := _haveToSaveData s;
     _heatPointDisplayTime := _heatPointDisplayTime s; _eepromData := _eepromData s;
     oldSleep := oldSleep s; oldADCVal := oldADCVal s; oldADCUI := oldADCUI s;
     localCnt := localCnt s; oldDisplayValue := oldDisplayValue s;
     oldSensorState := v; skipCounter := skipCounter s |}.

Definition set_skipCounter (v : Z) (s : state) : state :=
  {| _sleepTimer := _sleepTimer s; _buttonTimer := _buttonTimer s;
     _longPressTimer := _longPressTimer s; _haveToSaveData := _haveToSaveData s;
     _heatPointDisplayTime := _heatPointDisplayTime s; _eepromData := _eepromData s;
     oldSleep := oldSleep s; oldADCVal := oldADCVal s; oldADCUI := oldADCUI s;
     localCnt := localCnt s; oldDisplayValue := oldDisplayValue s;
     oldSensorState := oldSensorState s; skipCounter := v |}.

(** ** The monad of the loop: state passing plus a log of driver calls *)

Definition M (A : Type) : Type := state -> A * state * list event.

Definition ret {A : Type} (a : A) : M A := fun s => (a, s, []).

Definition bind {A B : Type} (m : M A) (k : A -> M B) : M B :=
  fun s =>
    let '(a, s1, t1) := m s in
    let '(b, s2, t2) := k a s1 in
    (b, s2, t1 ++ t2).

Definition get : M state := fun s => (s, s, []).
Definition modify (f : state -> state) : M unit := fun s => (tt, f s, []).
Definition emit (e : event) : M unit := fun s => (tt, s, [e]).

(** [when c m] is the C statement [if (c) m;]. *)
Definition when (c : bool) (m : M unit) : M unit := if c then m else ret tt.

Declare Scope loop_scope.
Delimit Scope loop_scope with loop.
Notation "x <- m ;; k" := (bind m (fun x => k))
  (at level 61, m at next level, right associativity) : loop_scope.
Notation "m ;; k" := (bind m (fun _ => k))
  (at level 61, right associativity) : loop_scope.
Local Open Scope loop_scope.

Definition result {A : Type} (r : A * state * list event) : A := fst (fst r).
Definition final {A : Type} (r : A * state * list event) : state := snd (fst r).
Definition trace {A : Type} (r : A * state * list event) : list event := snd r.

(** ** [setup]

    [millis] is what [currentMillis()] returns, [stored] what
    [eeprom_read] finds at [EEPROM_START_ADDR]. *)

Definition setup (millis : Z) (stored : EEPROM_DATA) : M unit :=
  emit (CLK_CKDIVR_write 0) ;;
  emit disable_interrupts ;;
  emit TIM4_init ;;
  emit enable_interrupts ;;
  emit S7C_init ;;
  emit (pinMode_output PD4) ;;
  emit (PWM_init PWM_CH1) ;;
  emit (PWM_duty PWM_CH1 50) ;;
  emit beepAlarm ;;
  modify (set__sleepTimer (uint32 millis)) ;;
  s <- get ;;
  modify (set__heatPointDisplayTime (uint32 (_sleepTimer s + HEATPOINT_DISPLAY_DELAY))) ;;
  modify (set__eepromData stored) ;;
  when (heatPoint stored =? 0) (* First launch, eeprom empty *)
    (let fresh := {| heatPoint := 270; sleepTimeout := 180000;
                     deepSleepTimeout := 600000 |} in
     modify (set__eepromData fresh) ;;
     emit (eeprom_write EEPROM_START_ADDR fresh)).

(** The zero-initialised statics at reset. *)
Definition reset_state : state :=
  {| _sleepTimer := 0; _buttonTimer := 0; _longPressTimer := 0;
     _haveToSaveData := 0; _heatPointDisplayTime := 0;
     _eepromData := {| heatPoint := 0; sleepTimeout := 0; deepSleepTimeout := 0 |};
     oldSleep := NOSLEEP; oldADCVal := 0; oldADCUI := 0; localCnt := 0;
     oldDisplayValue := 0; oldSensorState := 0; skipCounter := 0 |}.

(** ** [checkSleep] *)

Definition checkSleep (hw : input) (nowTime : Z) : M SleepState :=
  s <- get ;;
  let sensorState := uint8 (getPin hw PB5) in
  if negb (sensorState =? oldSensorState s) then
    modify (set__sleepTimer nowTime) ;;
    modify (set_oldSensorState sensorState) ;;
    ret NOSLEEP
  else if uint32 (nowTime - _sleepTimer s) >? deepSleepTimeout (_eepromData s) then
    ret DEEPSLEEP
  else if uint32 (nowTime - _sleepTimer s) >? sleepTimeout (_eepromData s) then
    ret SLEEP
  else
    ret NOSLEEP.

(** ** [checkHeatPointValidity] *)

Definition checkHeatPointValidity : M unit :=
  s <- get ;;
  when (heatPoint (_eepromData s) >? MAX_HEAT)
    (modify (set__eepromData (set_heatPoint MAX_HEAT (_eepromData s)))) ;;
  s <- get ;;
  when (heatPoint (_eepromData s) <? MIN_HEAT)
    (modify (set__eepromData (set_heatPoint MIN_HEAT (_eepromData s)))).

(** ** [checkButton]

    The [uint16_t *value] argument is [&_eepromData.heatPoint] at both call
    sites; [uint16_ptr] names the objects such a pointer refers to. *)

Inductive uint16_ptr : Set := ptr_heatPoint.

Definition deref (p : uint16_ptr) (s : state) : Z :=
  match p with ptr_heatPoint => heatPoint (_eepromData s) end.

Definition assign (p : uint16_ptr) (v : Z) (s : state) : state :=
  match p with
  | ptr_heatPoint => set__eepromData (set_heatPoint v (_eepromData s)) s
  end.

(** [*value += increment;] in [uint16_t] arithmetic. *)
Definition add_assign (value : uint16_ptr) (increment : Z) : M unit :=
  modify (fun s => assign value (uint16 (deref value s + increment)) s).

Definition checkButton (hw : input) (button : pin) (value : uint16_ptr)
    (increment : Z) (nowTime : Z) : M Z :=
  if getPin hw button =? LOW then
    s <- get ;;
    when (_buttonTimer s =? 0) (modify (set__buttonTimer nowTime)) ;;
    s <- get ;;
    when (_longPressTimer s =? 0) (modify (set__longPressTimer (_buttonTimer s))) ;;
    s <- get ;;
    (if uint32 (nowTime - _longPressTimer s) >? LONG_PRESS then
       (* skipCounter++ yields the old value *)
       modify (set_skipCounter (uint8 (skipCounter s + 1))) ;;
       when (skipCounter s mod FAST_INCREMENT =? 0)
         (add_assign value increment ;;
          modify (set__haveToSaveData nowTime))
     else if uint32 (nowTime - _buttonTimer s) >? SHORT_PRESS then
       add_assign value increment ;;
       modify (set__haveToSaveData nowTime) ;;
       modify (set__buttonTimer 0) ;;
       emit beep
     else
       ret tt) ;;
    modify (set__heatPointDisplayTime (uint32 (nowTime + HEATPOINT_DISPLAY_DELAY))) ;;
    ret HIGH
  else
    ret LOW.

Section Loop.

Context {symbols : S7C_symbols}.

(** ** [checkPendingDataSave] *)

Definition checkPendingDataSave (nowTime : Z) : M unit :=
  s <- get ;;
  when (negb (_haveToSaveData s =? 0)
        && (uint32 (nowTime - _haveToSaveData s) >? EEPROM_SAVE_TIMEOUT))
    (emit (S7C_setSymbol 3 SYM_SAVE) ;;
     emit (eeprom_write EEPROM_START_ADDR (_eepromData s)) ;;
     modify (set__haveToSaveData 0)).

(** ** [mainLoop]

    The pure expressions of the body, named after the locals they
    initialise. *)

(** [((old * 3) + raw) >> 2] on [uint16_t] operands. *)
Definition noise_filter (old raw : Z) : Z :=
  Z.shiftr (uint16 (uint16 (old * 3) + raw)) 2.

(** [uint8_t error = (adcVal < 10) ? 1 : (adcVal > 1000) ? 2 : 0;] *)
Definition error_of (adcVal : Z) : Z :=
  if adcVal <? 10 then 1 else if adcVal >? 1000 then 2 else 0.

(** [(MAX_HEAT - MIN_HEAT) * (adcVal - MIN_ADC_RT) / (MAX_ADC_RT - MIN_ADC_RT)]:
    [adcVal] is [unsigned int], so is every intermediate result. *)
Definition displayVal_of (adcVal : Z) : Z :=
  uint16 (uint16 ((MAX_HEAT - MIN_HEAT) * uint16 (adcVal - MIN_ADC_RT))
          / (MAX_ADC_RT - MIN_ADC_RT)).

(** [int16_t diff = (sleep == SLEEP) ? SLEEP_TEMP - displayVal
                                     : _eepromData.heatPoint - displayVal;] *)
Definition diff_of (sleep : SleepState) (heatPoint displayVal : Z) : Z :=
  int16 (if SleepState_eqb sleep SLEEP
         then uint16 (SLEEP_TEMP - displayVal)
         else uint16 (heatPoint - displayVal)).

(** [int16_t pwmVal = (sleep == DEEPSLEEP || diff < 0) ? 100
                      : (diff > 50) ? 50 : 90 - diff;] *)
Definition pwmVal_of (sleep : SleepState) (diff : Z) : Z :=
  int16 (if SleepState_eqb sleep DEEPSLEEP || (diff <? 0) then 100
         else if diff >? 50 then 50 else 90 - diff).

Definition mainLoop (hw : input) : M unit :=
  let displaySymbol := uint8 SYM_CELS in
  let nowTime := uint32 (currentMillis hw) in
  (* Input power sensor *)
  s <- get ;;
  let adcUIn := uint16 (ADC_read hw ADC1_CSR_CH1) in
  let adcUIn := noise_filter (oldADCUI s) adcUIn in
  modify (set_oldADCUI adcUIn) ;;
  (* Temperature sensor *)
  let adcVal := uint16 (ADC_read hw ADC1_CSR_CH0) in
  let adcVal := noise_filter (oldADCVal s) adcVal in
  modify (set_oldADCVal adcVal) ;;
  let error := error_of adcVal in
  if negb (error =? 0) then
    emit (PWM_duty PWM_CH1 100) ;;
    emit (S7C_setChars "ER") ;;
    emit (S7C_setDigit 2 error) ;;
    emit (S7C_refreshDisplay nowTime) ;;
    emit beep
    (* return *)
  else
    sleep <- checkSleep hw nowTime ;;
    s <- get ;;
    when (negb (SleepState_eqb (oldSleep s) sleep))
      (emit beepAlarm ;; modify (set_oldSleep sleep)) ;;
    let displayVal := displayVal_of adcVal in
    s <- get ;;
    let diff := diff_of sleep (heatPoint (_eepromData s)) displayVal in
    let pwmVal := pwmVal_of sleep diff in
    emit (PWM_duty PWM_CH1 pwmVal) ;;
    action <- checkButton hw PB7 ptr_heatPoint 1 nowTime ;;
    action' <- checkButton hw PB6 ptr_heatPoint (-1) nowTime ;;
    let action := uint8 (Z.lor action action') in
    when (action =? 0)
      (modify (set__buttonTimer 0) ;; modify (set__longPressTimer 0)) ;;
    checkHeatPointValidity ;;
    s <- get ;;
    let hp := heatPoint (_eepromData s) in
    let tempInRange :=
      (displayVal >=? uint16 (hp - 10)) && (displayVal <=? uint16 (hp + 10)) in
    let show := negb (action =? 0)
                || (nowTime <? _heatPointDisplayTime s) || tempInRange in
    let displayVal := if show then hp else displayVal in
    let displaySymbol :=
      if show then uint8 (Z.lor displaySymbol SYM_TEMP) else displaySymbol in
    let displaySymbol :=
      uint8 (Z.lor displaySymbol
               (if negb (SleepState_to_Z sleep =? 0)
                   && negb ((localCnt s / 500) mod 2 =? 0)
                then SYM_MOON else 0)) in
    let displaySymbol :=
      uint8 (Z.lor displaySymbol
               (if (pwmVal <? 100) && negb ((localCnt s / 50) mod 2 =? 0)
                then SYM_SUN else 0)) in
    (if negb (SleepState_eqb sleep DEEPSLEEP) then
       emit (S7C_setDigit 0 (displayVal / 100)) ;;
       emit (S7C_setDigit 1 ((displayVal mod 100) / 10)) ;;
       emit (S7C_setDigit 2 (displayVal mod 10))
     else
       emit (S7C_setSymbol 0 0) ;;
       emit (S7C_setSymbol 1 0) ;;
       emit (S7C_setSymbol 2 0)) ;;
    emit (S7C_setSymbol 3 displaySymbol) ;;
    checkPendingDataSave nowTime ;;
    emit (S7C_refreshDisplay nowTime) ;;
    s <- get ;;
    modify (set_localCnt (uint16 (localCnt s + 1))) ;;
    emit (delay_ms 1).

(** [main]'s [while (1) mainLoop();], cut after the passes of [hws]. *)
Fixpoint mainLoops (hws : list input) : M unit :=
  match hws with
  | [] => ret tt
  | hw :: hws' => mainLoop hw ;; mainLoops hws'
  end.

End Loop.

(** * Observations and intermediate states *)

(** ** What a log of driver calls shows *)

(** The duty values handed to [PWM_duty]. *)
Fixpoint duties (t : list event) : list Z :=
  match t with
  | [] => []
  | PWM_duty _ d :: t' => d :: duties t'
  | _ :: t' => duties t'
  end.

(** The records handed to [eeprom_write]. *)
Fixpoint writes (t : list event) : list EEPROM_DATA :=
  match t with
  | [] => []
  | eeprom_write _ d :: t' => d :: writes t'
  | _ :: t' => writes t'
  end.

(** The number of calls of [beep]. *)
Fixpoint beeps (t : list event) : nat :=
  match t with
  | [] => O
  | beep :: t' => S (beeps t')
  | _ :: t' => beeps t'
  end.

(** ** One pass of [mainLoop], statement by statement

    The state and the locals of [mainLoop hw s] after each group of
    statements of a pass that finds no sensor fault. *)

Section Pass.

Context {symbols : S7C_symbols}.
Variable hw : input.
Variable s : state.

Definition nowTime_of : Z := uint32 (currentMillis hw).

Definition adcUIn_of : Z :=
  noise_filter (oldADCUI s) (uint16 (ADC_read hw ADC1_CSR_CH1)).

Definition adcVal_of : Z :=
  noise_filter (oldADCVal s) (uint16 (ADC_read hw ADC1_CSR_CH0)).

Definition after_sensors : state :=
  set_oldADCVal adcVal_of (set_oldADCUI adcUIn_of s).

Definition sleep_of : SleepState :=
  result (checkSleep hw nowTime_of after_sensors).

Definition after_sleep : state :=
  let s1 := final (checkSleep hw nowTime_of after_sensors) in
  if negb (SleepState_eqb (oldSleep s1) sleep_of)
  then set_oldSleep sleep_of s1 else s1.

Definition pwmVal_in : Z :=
  pwmVal_of sleep_of
    (diff_of sleep_of (heatPoint (_eepromData after_sleep))
       (displayVal_of adcVal_of)).

Definition plus_button : Z * state * list event :=
  checkButton hw PB7 ptr_heatPoint 1 nowTime_of after_sleep.

Definition minus_button : Z * state * list event :=
  checkButton hw PB6 ptr_heatPoint (-1) nowTime_of (final plus_button).

Definition action_of : Z :=
  uint8 (Z.lor (result plus_button) (result minus_button)).

Definition after_buttons : state :=
  if action_of =? 0
  then set__longPressTimer 0 (set__buttonTimer 0 (final minus_button))
  else final minus_button.

Definition after_validity : state := final (checkHeatPointValidity after_buttons).

Definition pending_save : unit * state * list event :=
  checkPendingDataSave nowTime_of after_validity.

Definition after_pass : state :=
  set_localCnt (uint16 (localCnt (final pending_save) + 1)) (final pending_save).

End Pass.

(** ** The setpoint editor's share of the state

    [checkButton], the timer reset after it, [checkHeatPointValidity] and
    [checkPendingDataSave] read and write five objects only: the two press
    timers, the pending-save stamp, the configuration record and the
    repeat counter. *)

Record editor : Set := {
  ed_buttonTimer : Z;
  ed_longPressTimer : Z;
  ed_haveToSaveData : Z;
  ed_eepromData : EEPROM_DATA;
  ed_skipCounter : Z
}.

Definition editor_of (s : state) : editor :=
  {| ed_buttonTimer := _buttonTimer s;
     ed_longPressTimer := _longPressTimer s;
     ed_haveToSaveData := _haveToSaveData s;
     ed_eepromData := _eepromData s;
     ed_skipCounter := skipCounter s |}.

(** The path one call of [checkButton] takes through its body. *)
Inductive button_branch : Set :=
| NotPressed       (* getPin(button) != LOW *)
| RepeatEdit       (* long press, skipCounter a multiple of FAST_INCREMENT *)
| RepeatSkip       (* long press, any other skipCounter *)
| ShortPressEdit   (* the else-if branch *)
| Waiting.         (* pressed, neither threshold passed *)

(** [_buttonTimer] and [_longPressTimer] after the two [if (!...)]. *)
Definition armed_buttonTimer (nowTime : Z) (e : editor) : Z :=
  if ed_buttonTimer e =? 0 then nowTime else ed_buttonTimer e.

Definition armed_longPressTimer (nowTime : Z) (e : editor) : Z :=
  if ed_longPressTimer e =? 0 then armed_buttonTimer nowTime e
  else ed_longPressTimer e.

Definition branch_of (level nowTime : Z) (e : editor) : button_branch :=
  if level =? LOW then
    if uint32 (nowTime - armed_longPressTimer nowTime e) >? LONG_PRESS then
      if ed_skipCounter e mod FAST_INCREMENT =? 0 then RepeatEdit else RepeatSkip
    else if uint32 (nowTime - armed_buttonTimer nowTime e) >? SHORT_PRESS then
      ShortPressEdit
    else Waiting
  else NotPressed.

Definition edits (b : button_branch) : bool :=
  match b with RepeatEdit | ShortPressEdit => true | _ => false end.

Definition edited (increment : Z) (d : EEPROM_DATA) : EEPROM_DATA :=
  set_heatPoint (uint16 (heatPoint d + increment)) d.

Definition button_step (level increment nowTime : Z) (e : editor) : editor :=
  match branch_of level nowTime e with
  | NotPressed => e
  | RepeatEdit =>
      {| ed_buttonTimer := armed_buttonTimer nowTime e;
         ed_longPressTimer := armed_longPressTimer nowTime e;
         ed_haveToSaveData := nowTime;
         ed_eepromData := edited increment (ed_eepromData e);
         ed_skipCounter := uint8 (ed_skipCounter e + 1) |}
  | RepeatSkip =>
      {| ed_buttonTimer := armed_buttonTimer nowTime e;
         ed_longPressTimer := armed_longPressTimer nowTime e;
         ed_haveToSaveData := ed_haveToSaveData e;
         ed_eepromData := ed_eepromData e;
         ed_skipCounter := uint8 (ed_skipCounter e + 1) |}
  | ShortPressEdit =>
      {| ed_buttonTimer := 0;
         ed_longPressTimer := armed_longPressTimer nowTime e;
         ed_haveToSaveData := nowTime;
         ed_eepromData := edited increment (ed_eepromData e);
         ed_skipCounter := ed_skipCounter e |}
  | Waiting =>
      {| ed_buttonTimer := armed_buttonTimer nowTime e;
         ed_longPressTimer := armed_longPressTimer nowTime e;
         ed_haveToSaveData := ed_haveToSaveData e;
         ed_eepromData := ed_eepromData e;
         ed_skipCounter := ed_skipCounter e |}
  end.

(** [if (!action) { _buttonTimer = 0; _longPressTimer = 0; }] *)
Definition release_step (level7 level6 : Z) (e : editor) : editor :=
  if (level7 =? LOW) || (level6 =? LOW) then e
  else
    {| ed_buttonTimer := 0;
       ed_longPressTimer := 0;
       ed_haveToSaveData := ed_haveToSaveData e;
       ed_eepromData := ed_eepromData e;
       ed_skipCounter := ed_skipCounter e |}.

Definition with_heatPoint (v : Z) (e : editor) : editor :=
  {| ed_buttonTimer := ed_buttonTimer e;
     ed_longPressTimer := ed_longPressTimer e;
     ed_haveToSaveData := ed_haveToSaveData e;
     ed_eepromData := set_heatPoint v (ed_eepromData e);
     ed_skipCounter := ed_skipCounter e |}.

(** [checkHeatPointValidity] *)
Definition validity_step (e : editor) : editor :=
  if heatPoint (ed_eepromData e) >? MAX_HEAT then with_heatPoint MAX_HEAT e
  else if heatPoint (ed_eepromData e) <? MIN_HEAT then with_heatPoint MIN_HEAT e
  else e.

(** The condition of [checkPendingDataSave]. *)
Definition save_due (nowTime : Z) (e : editor) : bool :=
  negb (ed_haveToSaveData e =? 0)
  && (uint32 (nowTime - ed_haveToSaveData e) >? EEPROM_SAVE_TIMEOUT).

Definition save_step (nowTime : Z) (e : editor) : editor :=
  if save_due nowTime e then
    {| ed_buttonTimer := ed_buttonTimer e;
       ed_longPressTimer := ed_longPressTimer e;
       ed_haveToSaveData := 0;
       ed_eepromData := ed_eepromData e;
       ed_skipCounter := ed_skipCounter e |}
  else e.

(** The editor up to [checkHeatPointValidity], and after the whole pass. *)
Definition edit_step (level7 level6 nowTime : Z) (e : editor) : editor :=
  validity_step
    (release_step level7 level6
       (button_step level6 (-1) nowTime (button_step level7 1 nowTime e))).

Definition pass_step (level7 level6 nowTime : Z) (e : editor) : editor :=
  save_step nowTime (edit_step level7 level6 nowTime e).

(** Does the pass run [*value += increment] for one of the buttons? *)
Definition pass_edits (level7 level6 nowTime : Z) (e : editor) : bool :=
  edits (branch_of level7 nowTime e)
  || edits (branch_of level6 nowTime (button_step level7 1 nowTime e)).

(** The calls of [beep] of the two [checkButton]s of a pass. *)
Definition pass_beeps (level7 level6 nowTime : Z) (e : editor) : nat :=
  ((match branch_of level7 nowTime e with ShortPressEdit => 1 | _ => 0 end)
   + (match branch_of level6 nowTime (button_step level7 1 nowTime e) with
      | ShortPressEdit => 1 | _ => 0 end))%nat.

(** ** Sample runs *)

(** The state [setup] leaves at a first launch (empty EEPROM) with the
    millisecond counter at 0. *)
Definition power_on : state :=
  final (setup 0 {| heatPoint := 0; sleepTimeout := 0; deepSleepTimeout := 0 |}
           reset_state).

(** What the drivers answer in a pass: the counter, the raw temperature
    sample (the power sample is 0), and the levels of PB5, PB6 and PB7. *)
Definition sample (millis temperature pb5 pb6 pb7 : Z) : input :=
  {| currentMillis := millis;
     ADC_read := fun ch =>
       match ch with ADC1_CSR_CH0 => temperature | ADC1_CSR_CH1 => 0 end;
     getPin := fun p =>
       match p with PB5 => pb5 | PB6 => pb6 | PB7 => pb7 | PD4 => LOW end |}.

(** ** Runs of the loop *)

Section Runs.

Context {symbols : S7C_symbols}.

(** Does [checkButton], started in [before] with outcome [r], change
    [*value]? *)
Definition value_changed (before : state) (r : Z * state * list event) : bool :=
  negb (deref ptr_heatPoint (final r) =? deref ptr_heatPoint before).

(** Does the pass [mainLoop hw s] edit the setpoint, with either button? *)
Definition setpoint_edited (hw : input) (s : state) : bool :=
  value_changed (after_sleep hw s) (plus_button hw s)
  || value_changed (final (plus_button hw s)) (minus_button hw s).

(** No pass of the run finds a sensor fault. *)
Fixpoint faultless (hws : list input) (s : state) : bool :=
  match hws with
  | [] => true
  | hw :: hws' =>
      (error_of (adcVal_of hw s) =? 0) && faultless hws' (final (mainLoop hw s))
  end.

(** The counter readings [ts] never go back, starting from [prev]. *)
Fixpoint ascending (prev : Z) (ts : list Z) : bool :=
  match ts with
  | [] => true
  | t :: ts' => (prev <=? t) && ascending t ts'
  end.

(** The counter reading of the last pass of a run ([prev] for no pass). *)
Definition last_time (prev : Z) (hws : list input) : Z :=
  last (map nowTime_of hws) prev.

(** The counter reading of the last pass of the run that edits the
    setpoint ([stamp] when none does). *)
Fixpoint last_edit (stamp : Z) (hws : list input) (s : state) : Z :=
  match hws with
  | [] => stamp
  | hw :: hws' =>
      last_edit (if setpoint_edited hw s then nowTime_of hw else stamp)
        hws' (final (mainLoop hw s))
  end.

(** Every edit of the run happens at a non-zero counter reading and less
    than [EEPROM_SAVE_TIMEOUT] after the edit before it ([stamp] is the
    reading at that one, 0 for none). *)
Fixpoint edits_spaced (stamp : Z) (hws : list input) (s : state) : bool :=
  match hws with
  | [] => true
  | hw :: hws' =>
      if setpoint_edited hw s then
        negb (nowTime_of hw =? 0)
        && ((stamp =? 0) || (nowTime_of hw - stamp <? EEPROM_SAVE_TIMEOUT))
        && edits_spaced (nowTime_of hw) hws' (final (mainLoop hw s))
      else edits_spaced stamp hws' (final (mainLoop hw s))
  end.

(** Some pass of the run edits the setpoint at a non-zero counter reading. *)
Fixpoint rearmed (hws : list input) (s : state) : bool :=
  match hws with
  | [] => false
  | hw :: hws' =>
      (error_of (adcVal_of hw s) =? 0) && setpoint_edited hw s
        && negb (nowTime_of hw =? 0)
      || rearmed hws' (final (mainLoop hw s))
  end.

End Runs.

(** A warmed-up station (filter memory at 100, setpoint 270) on which a
    button has been down since the counter read [t]. *)
Definition held_since (t : Z) : state :=
  set__longPressTimer t (set__buttonTimer t (set_oldADCVal 100 power_on)).

(** ** Holding one button *)

(** [button] is down and the other button is up. *)
Definition only_held (button : pin) (hw : input) : bool :=
  match button with
  | PB7 => (getPin hw PB7 =? LOW) && negb (getPin hw PB6 =? LOW)
  | PB6 => negb (getPin hw PB7 =? LOW) && (getPin hw PB6 =? LOW)
  | _ => false
  end.

Definition both_released (hw : input) : bool :=
  negb (getPin hw PB7 =? LOW) && negb (getPin hw PB6 =? LOW).

(** The increment [mainLoop] passes to [checkButton] for [button]. *)
Definition increment_of (button : pin) : Z :=
  match button with PB7 => 1 | PB6 => -1 | _ => 0 end.

(** Passes one millisecond apart, from [t0] to [t0 + n], with PB7 down,
    PB6 up and a steady temperature sample of 100. *)
Definition press_plus (t0 : Z) (n : nat) : list input :=
  map (fun k => sample (t0 + Z.of_nat k) 100 HIGH HIGH LOW) (seq 0 (S n)).

(** The editor during a hold that began at [t0]: before the short-press
    branch has run, and after it ran at [tf]. *)
Definition armed (t0 : Z) (d : EEPROM_DATA) (e : editor) : Prop :=
  ed_buttonTimer e = t0 /\ ed_longPressTimer e = t0 /\ ed_eepromData e = d.

Definition fired (t0 tf t : Z) (d : EEPROM_DATA) (e : editor) : Prop :=
  ed_longPressTimer e = t0
  /\ (ed_buttonTimer e = 0 \/ t0 + SHORT_PRESS < ed_buttonTimer e <= t)
  /\ ed_haveToSaveData e = tf
  /\ t0 + SHORT_PRESS < tf <= t
  /\ ed_eepromData e = d.

(** ** More observations, and the display composer *)

(** The calls of [S7C_setDigit], as (position, value). *)
Fixpoint digits (t : list event) : list (Z * Z) :=
  match t with
  | [] => []
  | S7C_setDigit pos v :: t' => (pos, v) :: digits t'
  | _ :: t' => digits t'
  end.

(** The calls of [S7C_setSymbol], as (position, mask). *)
Fixpoint symbols_set (t : list event) : list (Z * Z) :=
  match t with
  | [] => []
  | S7C_setSymbol pos m :: t' => (pos, m) :: symbols_set t'
  | _ :: t' => symbols_set t'
  end.

(** The number of calls of [beepAlarm]. *)
Fixpoint alarms (t : list event) : nat :=
  match t with
  | [] => O
  | beepAlarm :: t' => S (alarms t')
  | _ :: t' => alarms t'
  end.

Section Display.

Context {symbols : S7C_symbols}.
Variable hw : input.
Variable s : state.

(** [tempInRange] of [mainLoop]. *)
Definition tempInRange_of : bool :=
  let hp := heatPoint (_eepromData (after_validity hw s)) in
  (displayVal_of (adcVal_of hw s) >=? uint16 (hp - 10))
  && (displayVal_of (adcVal_of hw s) <=? uint16 (hp + 10)).

(** The condition under which [mainLoop] shows the setpoint. *)
Definition shows_heatPoint : bool :=
  negb (action_of hw s =? 0)
  || (nowTime_of hw <? _heatPointDisplayTime (after_validity hw s))
  || tempInRange_of.

(** [displayVal] when the digits are set. *)
Definition shown_of : Z :=
  if shows_heatPoint then heatPoint (_eepromData (after_validity hw s))
  else displayVal_of (adcVal_of hw s).

(** [displaySymbol] when [S7C_setSymbol(3, displaySymbol)] is called. *)
Definition displaySymbol_of : Z :=
  let sym := uint8 SYM_CELS in
  let sym := if shows_heatPoint then uint8 (Z.lor sym SYM_TEMP) else sym in
  let sym :=
    uint8 (Z.lor sym
             (if negb (SleepState_to_Z (sleep_of hw s) =? 0)
                 && negb ((localCnt (after_validity hw s) / 500) mod 2 =? 0)
              then SYM_MOON else 0)) in
  uint8 (Z.lor sym
           (if (pwmVal_in hw s <? 100)
               && negb ((localCnt (after_validity hw s) / 50) mod 2 =? 0)
            then SYM_SUN else 0)).

End Display.

Section Main.

Context {symbols : S7C_symbols}.

(** [main]: [setup();] then [while (1) mainLoop();], cut after the passes
    of [hws]. *)
Definition main (millis : Z) (stored : EEPROM_DATA) (hws : list input) : M unit :=
  setup millis stored ;; mainLoops hws.

(** Every pass of the run finds a sensor fault. *)
Fixpoint all_faults (hws : list input) (s : state) : bool :=
  match hws with
  | [] => true
  | hw :: hws' =>
      negb (error_of (adcVal_of hw s) =? 0)
      && all_faults hws' (final (mainLoop hw s))
  end.

End Main.

(** The setpoint is one the editor may leave behind. *)
Definition valid_heatPoint (d : EEPROM_DATA) : Prop :=
  MIN_HEAT <= heatPoint d <= MAX_HEAT.

(** ** Machine-integer facts *)

#[global] Arguments uint8 : simpl never.
#[global] Arguments uint16 : simpl never.
#[global] Arguments uint32 : simpl never.
#[global] Arguments int16 : simpl never.

Lemma uint8_range z : 0 <= uint8 z < 256.
Proof. unfold uint8; apply Z.mod_pos_bound; lia. Qed.

Lemma uint16_range z : 0 <= uint16 z < 65536.
Proof. unfold uint16; apply Z.mod_pos_bound; lia. Qed.

Lemma uint32_range z : 0 <= uint32 z < 4294967296.
Proof. unfold uint32; apply Z.mod_pos_bound; lia. Qed.

Lemma uint8_small z : 0 <= z < 256 -> uint8 z = z.
Proof. unfold uint8; apply Z.mod_small. Qed.

Lemma uint16_small z : 0 <= z < 65536 -> uint16 z = z.
Proof. unfold uint16; apply Z.mod_small. Qed.

Lemma uint32_small z : 0 <= z < 4294967296 -> uint32 z = z.
Proof. unfold uint32; apply Z.mod_small. Qed.

Lemma int16_small z : -32768 <= z < 32768 -> int16 z = z.
Proof. intros H; unfold int16; rewrite Z.mod_small; lia. Qed.

(** A difference of two [uint16_t] read back as [int16_t]. *)
Lemma int16_uint16_sub a b :
  -32768 <= a - b < 32768 -> int16 (uint16 (a - b)) = a - b.
Proof.
  intros H; unfold int16, uint16.
  rewrite Zplus_mod_idemp_l, Z.mod_small; lia.
Qed.

Lemma noise_filter_range old raw : 0 <= noise_filter old raw < 16384.
Proof.
  unfold noise_filter; rewrite Z.shiftr_div_pow2 by lia.
  change (2 ^ 2) with 4.
  pose proof (uint16_range (uint16 (old * 3) + raw)) as H.
  split; [apply Z.div_pos; lia | apply Z.div_lt_upper_bound; lia].
Qed.

Lemma displayVal_of_range adcVal : 0 <= displayVal_of adcVal <= 728.
Proof.
  unfold displayVal_of, MAX_HEAT, MIN_HEAT, MAX_ADC_RT, MIN_ADC_RT.
  change (130 - 40) with 90.
  pose proof (uint16_range ((450 - 50) * uint16 (adcVal - 40))) as H.
  assert (0 <= uint16 ((450 - 50) * uint16 (adcVal - 40)) / 90 <= 728) as H'.
  { split; [apply Z.div_pos; lia |].
    apply Z.lt_succ_r, Z.div_lt_upper_bound; lia. }
  rewrite uint16_small; lia.
Qed.

(** ** Reasoning about the monad *)

Section MonadFacts.

Context {A B : Type}.

Lemma bind_unfold (m : M A) (k : A -> M B) (s : state) :
  bind m k s =
  (result (k (result (m s)) (final (m s))),
   final (k (result (m s)) (final (m s))),
   trace (m s) ++ trace (k (result (m s)) (final (m s)))).
Proof.
  unfold bind, result, final, trace.
  destruct (m s) as [[a s1] t1]; cbn.
  destruct (k a s1) as [[b s2] t2]; reflexivity.
Qed.

Lemma result_bind (m : M A) (k : A -> M B) s :
  result (bind m k s) = result (k (result (m s)) (final (m s))).
Proof. rewrite bind_unfold; reflexivity. Qed.

Lemma final_bind (m : M A) (k : A -> M B) s :
  final (bind m k s) = final (k (result (m s)) (final (m s))).
Proof. rewrite bind_unfold; reflexivity. Qed.

Lemma trace_bind (m : M A) (k : A -> M B) s :
  trace (bind m k s) = trace (m s) ++ trace (k (result (m s)) (final (m s))).
Proof. rewrite bind_unfold; reflexivity. Qed.

End MonadFacts.

Lemma run_eta {A : Type} (r : A * state * list event) :
  r = (result r, final r, trace r).
Proof. destruct r as [[a s] t]; reflexivity. Qed.

Lemma final_when c m s : final (when c m s) = if c then final (m s) else s.
Proof. destruct c; reflexivity. Qed.

Lemma trace_when c m s : trace (when c m s) = if c then trace (m s) else [].
Proof. destruct c; reflexivity. Qed.

Lemma final_if {A : Type} (c : bool) (m1 m2 : M A) s :
  final ((if c then m1 else m2) s) = if c then final (m1 s) else final (m2 s).
Proof. destruct c; reflexivity. Qed.

Lemma trace_if {A : Type} (c : bool) (m1 m2 : M A) s :
  trace ((if c then m1 else m2) s) = if c then trace (m1 s) else trace (m2 s).
Proof. destruct c; reflexivity. Qed.

Lemma result_if {A : Type} (c : bool) (m1 m2 : M A) s :
  result ((if c then m1 else m2) s) = if c then result (m1 s) else result (m2 s).
Proof. destruct c; reflexivity. Qed.

Lemma apply_if {A B : Type} (f : A -> B) (c : bool) (a b : A) :
  f (if c then a else b) = if c then f a else f b.
Proof. destruct c; reflexivity. Qed.

Lemma if_same {A : Type} (c : bool) (a : A) : (if c then a else a) = a.
Proof. destruct c; reflexivity. Qed.

(** Symbolic execution of monadic code, one [bind] at a time. *)
Ltac step_loop :=
  repeat first
    [ rewrite final_bind | rewrite trace_bind | rewrite result_bind
    | rewrite final_when | rewrite trace_when
    | rewrite final_if | rewrite trace_if | rewrite result_if
    | progress cbn [get modify emit ret final result trace fst snd app]
    | rewrite if_same ].

Lemma duties_app t1 t2 : duties (t1 ++ t2) = duties t1 ++ duties t2.
Proof.
  induction t1 as [|e t1 IH]; [reflexivity|].
  destruct e; cbn; rewrite IH; reflexivity.
Qed.

Lemma writes_app t1 t2 : writes (t1 ++ t2) = writes t1 ++ writes t2.
Proof.
  induction t1 as [|e t1 IH]; [reflexivity|].
  destruct e; cbn; rewrite IH; reflexivity.
Qed.

Lemma beeps_app t1 t2 : beeps (t1 ++ t2) = (beeps t1 + beeps t2)%nat.
Proof.
  induction t1 as [|e t1 IH]; [reflexivity|].
  destruct e; cbn; rewrite IH; reflexivity.
Qed.


(** Case analysis on the innermost condition of the goal. *)
Ltac case_if :=
  match goal with
  | |- context [if ?c then _ else _] =>
      lazymatch c with
      | context [if _ then _ else _] => fail
      | _ => destruct c eqn:?
      end
  end.

(** ** The functions called by [mainLoop] *)

Lemma checkSleep_toggle hw nowTime s :
  uint8 (getPin hw PB5) <> oldSensorState s ->
  checkSleep hw nowTime s =
  (NOSLEEP, set_oldSensorState (uint8 (getPin hw PB5)) (set__sleepTimer nowTime s), []).
Proof.
  intros H. apply Z.eqb_neq in H.
  rewrite (run_eta (checkSleep hw nowTime s)). unfold checkSleep.
  step_loop. rewrite H. cbn [negb]. step_loop. reflexivity.
Qed.

Lemma checkSleep_steady hw nowTime s :
  uint8 (getPin hw PB5) = oldSensorState s ->
  checkSleep hw nowTime s =
  (if uint32 (nowTime - _sleepTimer s) >? deepSleepTimeout (_eepromData s)
   then DEEPSLEEP
   else if uint32 (nowTime - _sleepTimer s) >? sleepTimeout (_eepromData s)
        then SLEEP else NOSLEEP,
   s, []).
Proof.
  intros H. apply Z.eqb_eq in H.
  rewrite (run_eta (checkSleep hw nowTime s)). unfold checkSleep.
  step_loop. rewrite H. cbn [negb]. step_loop. reflexivity.
Qed.

Lemma trace_checkSleep hw nowTime s : trace (checkSleep hw nowTime s) = [].
Proof.
  destruct (Z.eq_dec (uint8 (getPin hw PB5)) (oldSensorState s)) as [H|H].
  - rewrite checkSleep_steady by assumption. reflexivity.
  - rewrite checkSleep_toggle by assumption. reflexivity.
Qed.

Lemma editor_checkSleep hw nowTime s :
  editor_of (final (checkSleep hw nowTime s)) = editor_of s.
Proof.
  destruct (Z.eq_dec (uint8 (getPin hw PB5)) (oldSensorState s)) as [H|H].
  - rewrite checkSleep_steady by assumption. reflexivity.
  - rewrite checkSleep_toggle by assumption. reflexivity.
Qed.

Lemma checkButton_released hw button value increment nowTime s :
  getPin hw button <> LOW ->
  checkButton hw button value increment nowTime s = (LOW, s, []).
Proof.
  intros H. apply Z.eqb_neq in H. unfold checkButton. rewrite H. reflexivity.
Qed.

Lemma result_checkButton hw button value increment nowTime s :
  result (checkButton hw button value increment nowTime s) =
  if getPin hw button =? LOW then HIGH else LOW.
Proof.
  unfold checkButton. destruct (getPin hw button =? LOW); [|reflexivity].
  step_loop. reflexivity.
Qed.

Lemma editor_checkButton hw button increment nowTime s :
  editor_of (final (checkButton hw button ptr_heatPoint increment nowTime s)) =
  button_step (getPin hw button) increment nowTime (editor_of s).
Proof.
  unfold checkButton, button_step, branch_of.
  destruct (getPin hw button =? LOW); [|reflexivity].
  step_loop.
  unfold armed_longPressTimer, armed_buttonTimer, add_assign.
  repeat (case_if; cbn in * ); try reflexivity; try congruence.
Qed.

Lemma trace_checkButton hw button increment nowTime s :
  trace (checkButton hw button ptr_heatPoint increment nowTime s) =
  match branch_of (getPin hw button) nowTime (editor_of s) with
  | ShortPressEdit => [beep]
  | _ => []
  end.
Proof.
  unfold checkButton, branch_of.
  destruct (getPin hw button =? LOW); [|reflexivity].
  step_loop.
  unfold armed_longPressTimer, armed_buttonTimer, add_assign.
  repeat (case_if; cbn in * ); try reflexivity; try congruence.
Qed.

Lemma duties_checkButton hw button increment nowTime s :
  duties (trace (checkButton hw button ptr_heatPoint increment nowTime s)) = [].
Proof. rewrite trace_checkButton. destruct (branch_of _ _ _); reflexivity. Qed.

Lemma writes_checkButton hw button increment nowTime s :
  writes (trace (checkButton hw button ptr_heatPoint increment nowTime s)) = [].
Proof. rewrite trace_checkButton. destruct (branch_of _ _ _); reflexivity. Qed.

Lemma final_checkHeatPointValidity s :
  editor_of (final (checkHeatPointValidity s)) = validity_step (editor_of s)
  /\ trace (checkHeatPointValidity s) = [].
Proof.
  unfold checkHeatPointValidity, validity_step. step_loop.
  cbn [editor_of ed_eepromData].
  repeat (case_if; cbn in * ); split; try reflexivity; try congruence.
  all: unfold MAX_HEAT, MIN_HEAT in *; lia.
Qed.

Section SaveFacts.

Context {symbols : S7C_symbols}.

Lemma checkPendingDataSave_due nowTime s :
  save_due nowTime (editor_of s) = true ->
  checkPendingDataSave nowTime s =
  (tt, set__haveToSaveData 0 s,
   [S7C_setSymbol 3 SYM_SAVE; eeprom_write EEPROM_START_ADDR (_eepromData s)]).
Proof.
  unfold save_due; cbn [editor_of ed_haveToSaveData]; intros H.
  rewrite (run_eta (checkPendingDataSave nowTime s)). unfold checkPendingDataSave.
  step_loop. rewrite H. step_loop. reflexivity.
Qed.

Lemma checkPendingDataSave_idle nowTime s :
  save_due nowTime (editor_of s) = false ->
  checkPendingDataSave nowTime s = (tt, s, []).
Proof.
  unfold save_due; cbn [editor_of ed_haveToSaveData]; intros H.
  rewrite (run_eta (checkPendingDataSave nowTime s)). unfold checkPendingDataSave.
  step_loop. rewrite H. reflexivity.
Qed.

Lemma editor_checkPendingDataSave nowTime s :
  editor_of (final (checkPendingDataSave nowTime s)) =
  save_step nowTime (editor_of s).
Proof.
  unfold save_step. destruct (save_due nowTime (editor_of s)) eqn:H.
  - rewrite checkPendingDataSave_due by assumption. reflexivity.
  - rewrite checkPendingDataSave_idle by assumption. reflexivity.
Qed.

Lemma writes_checkPendingDataSave nowTime s :
  writes (trace (checkPendingDataSave nowTime s)) =
  if save_due nowTime (editor_of s) then [_eepromData s] else [].
Proof.
  destruct (save_due nowTime (editor_of s)) eqn:H.
  - rewrite checkPendingDataSave_due by assumption. reflexivity.
  - rewrite checkPendingDataSave_idle by assumption. reflexivity.
Qed.

Lemma duties_nil_checkPendingDataSave nowTime s :
  duties (trace (checkPendingDataSave nowTime s)) = [].
Proof.
  destruct (save_due nowTime (editor_of s)) eqn:H.
  - rewrite checkPendingDataSave_due by assumption. reflexivity.
  - rewrite checkPendingDataSave_idle by assumption. reflexivity.
Qed.

Lemma beeps_zero_checkPendingDataSave nowTime s :
  beeps (trace (checkPendingDataSave nowTime s)) = O.
Proof.
  destruct (save_due nowTime (editor_of s)) eqn:H.
  - rewrite checkPendingDataSave_due by assumption. reflexivity.
  - rewrite checkPendingDataSave_idle by assumption. reflexivity.
Qed.

End SaveFacts.

(** ** One pass of [mainLoop] *)

Section PassFacts.

Context {symbols : S7C_symbols}.

(** Symbolic execution of [mainLoop]: name the outcome of the next call
    of [f], or split on the next test, then reduce. *)
Ltac call_of f :=
  match goal with
  | |- context [match ?c with pair _ _ => _ end] =>
      match c with
      | context [f] =>
          lazymatch c with
          | context [match _ with pair _ _ => _ end] => fail
          | _ => let a := fresh "a" in let s' := fresh "s" in
                 let t := fresh "t" in let E := fresh "E" in
                 destruct c as [[a s'] t] eqn:E
          end
      end
  end; lazy beta iota zeta delta [final result trace fst snd].

Ltac test_of :=
  match goal with
  | |- context [match (if ?c then _ else _) _ with pair _ _ => _ end] =>
      let E := fresh "E" in destruct c eqn:E
  end; lazy beta iota zeta delta [final result trace fst snd].

Ltac open_mainLoop :=
  lazy beta iota zeta delta [mainLoop bind get modify emit ret when].

Lemma mainLoop_fault hw s :
  error_of (adcVal_of hw s) <> 0 ->
  mainLoop hw s =
  (tt, after_sensors hw s,
   [PWM_duty PWM_CH1 100; S7C_setChars "ER";
    S7C_setDigit 2 (error_of (adcVal_of hw s));
    S7C_refreshDisplay (nowTime_of hw); beep]).
Proof.
  intros H. apply Z.eqb_neq in H. unfold adcVal_of in H.
  open_mainLoop. rewrite H. change (negb false) with true.
  lazy beta iota zeta. reflexivity.
Qed.

Lemma checkSleep_outcome hw nowTime s a s' t :
  checkSleep hw nowTime s = (a, s', t) -> t = [].
Proof.
  intros E. pose proof (trace_checkSleep hw nowTime s) as H.
  rewrite E in H. exact H.
Qed.

Lemma checkHeatPointValidity_outcome s a s' t :
  checkHeatPointValidity s = (a, s', t) -> t = [].
Proof.
  intros E. pose proof (proj2 (final_checkHeatPointValidity s)) as H.
  rewrite E in H. exact H.
Qed.

Lemma checkButton_outcome hw button increment nowTime s a s' t :
  checkButton hw button ptr_heatPoint increment nowTime s = (a, s', t) ->
  duties t = [] /\ writes t = [].
Proof.
  intros E.
  pose proof (duties_checkButton hw button increment nowTime s) as H1.
  pose proof (writes_checkButton hw button increment nowTime s) as H2.
  rewrite E in H1, H2. split; assumption.
Qed.

Lemma checkPendingDataSave_outcome nowTime s a s' t :
  checkPendingDataSave nowTime s = (a, s', t) ->
  duties t = [] /\ beeps t = 0%nat.
Proof.
  intros E.
  pose proof (duties_nil_checkPendingDataSave nowTime s) as H1.
  pose proof (beeps_zero_checkPendingDataSave nowTime s) as H2.
  rewrite E in H1, H2. split; assumption.
Qed.

(** A pass without fault: its final state, and its log seen through
    [duties], [writes] and [beeps]. *)
Lemma mainLoop_ok hw s :
  error_of (adcVal_of hw s) = 0 ->
  exists t,
    mainLoop hw s = (tt, after_pass hw s, t)
    /\ duties t = [pwmVal_in hw s]
    /\ writes t = writes (trace (pending_save hw s))
    /\ beeps t =
         (beeps (trace (plus_button hw s))
          + beeps (trace (minus_button hw s)))%nat.
Proof.
  intros H. apply Z.eqb_eq in H.
  unfold after_pass, pwmVal_in, pending_save, after_validity, after_buttons,
    action_of, minus_button, plus_button, after_sleep, sleep_of,
    after_sensors, adcVal_of, adcUIn_of, nowTime_of in *.
  open_mainLoop. rewrite H. change (negb true) with false.
  lazy beta iota zeta delta [final result trace fst snd].
  call_of @checkSleep.
  apply checkSleep_outcome in E as Et; subst.
  test_of; cbn [final result trace fst snd];
    (call_of @checkButton; apply checkButton_outcome in E1 as [D7 W7];
     call_of @checkButton;
     match goal with
     | E' : checkButton _ PB6 _ _ _ _ = _ |- _ =>
         apply checkButton_outcome in E' as [D6 W6]
     end;
     cbn [final result trace fst snd];
     test_of;
     (call_of @checkHeatPointValidity;
      match goal with
      | E' : checkHeatPointValidity _ = _ |- _ =>
          apply checkHeatPointValidity_outcome in E' as Ev; subst
      end;
      cbn [final result trace fst snd];
      test_of;
      (call_of @checkPendingDataSave;
       match goal with
       | E' : checkPendingDataSave _ _ = _ |- _ =>
           apply checkPendingDataSave_outcome in E' as [D5 B5]
       end;
       cbn [final result trace fst snd];
       eexists; split; [reflexivity|];
       repeat first [ rewrite duties_app | rewrite writes_app | rewrite beeps_app
                    | progress cbn [duties writes beeps app] ];
       rewrite ?D7, ?W7, ?D6, ?W6, ?D5, ?B5; cbn [app];
       rewrite ?app_nil_r, ?Nat.add_0_r;
       repeat split; reflexivity))).
Qed.

Lemma final_mainLoop_ok hw s :
  error_of (adcVal_of hw s) = 0 ->
  final (mainLoop hw s) = after_pass hw s.
Proof.
  intros H. destruct (mainLoop_ok hw s H) as (t & E & _).
  rewrite E. reflexivity.
Qed.

Lemma editor_after_sleep hw s : editor_of (after_sleep hw s) = editor_of s.
Proof.
  unfold after_sleep.
  destruct (negb _); cbn [editor_of set_oldSleep _buttonTimer _longPressTimer
    _haveToSaveData _eepromData skipCounter];
  apply (editor_checkSleep hw (nowTime_of hw) (after_sensors hw s)).
Qed.

Lemma action_of_zero hw s :
  (action_of hw s =? 0) =
  negb ((getPin hw PB7 =? LOW) || (getPin hw PB6 =? LOW)).
Proof.
  unfold action_of, plus_button, minus_button.
  rewrite !result_checkButton.
  destruct (getPin hw PB7 =? LOW), (getPin hw PB6 =? LOW); reflexivity.
Qed.

Lemma editor_after_validity hw s :
  editor_of (after_validity hw s) =
  edit_step (getPin hw PB7) (getPin hw PB6) (nowTime_of hw) (editor_of s).
Proof.
  unfold after_validity, edit_step.
  rewrite (proj1 (final_checkHeatPointValidity _)). f_equal.
  unfold after_buttons, release_step. rewrite action_of_zero.
  assert (editor_of (final (minus_button hw s)) =
          button_step (getPin hw PB6) (-1) (nowTime_of hw)
            (button_step (getPin hw PB7) 1 (nowTime_of hw) (editor_of s))) as E.
  { unfold minus_button, plus_button.
    rewrite !editor_checkButton, editor_after_sleep. reflexivity. }
  destruct ((getPin hw PB7 =? LOW) || (getPin hw PB6 =? LOW)); cbn [negb].
  - exact E.
  - rewrite <- E. reflexivity.
Qed.

Lemma editor_mainLoop_ok hw s :
  error_of (adcVal_of hw s) = 0 ->
  editor_of (final (mainLoop hw s)) =
  pass_step (getPin hw PB7) (getPin hw PB6) (nowTime_of hw) (editor_of s).
Proof.
  intros H. rewrite final_mainLoop_ok by assumption.
  unfold after_pass, pending_save, pass_step.
  rewrite <- editor_after_validity, <- editor_checkPendingDataSave.
  reflexivity.
Qed.

Lemma editor_mainLoop_fault hw s :
  error_of (adcVal_of hw s) <> 0 ->
  editor_of (final (mainLoop hw s)) = editor_of s.
Proof. intros H. rewrite mainLoop_fault by assumption. reflexivity. Qed.

(** The log of a pass without fault, seen through [duties], [writes] and
    [beeps]. *)

Lemma duties_mainLoop_ok hw s :
  error_of (adcVal_of hw s) = 0 ->
  duties (trace (mainLoop hw s)) = [pwmVal_in hw s].
Proof.
  intros H. destruct (mainLoop_ok hw s H) as (t & E & D & _).
  rewrite E. exact D.
Qed.

Lemma writes_mainLoop_ok hw s :
  error_of (adcVal_of hw s) = 0 ->
  writes (trace (mainLoop hw s)) = writes (trace (pending_save hw s)).
Proof.
  intros H. destruct (mainLoop_ok hw s H) as (t & E & _ & W & _).
  rewrite E. exact W.
Qed.

Lemma beeps_mainLoop_ok hw s :
  error_of (adcVal_of hw s) = 0 ->
  beeps (trace (mainLoop hw s)) =
  pass_beeps (getPin hw PB7) (getPin hw PB6) (nowTime_of hw) (editor_of s).
Proof.
  intros H. destruct (mainLoop_ok hw s H) as (t & E & _ & _ & B).
  rewrite E. cbn [trace snd]. rewrite B.
  unfold minus_button, plus_button at 1.
  rewrite !trace_checkButton. unfold plus_button.
  rewrite editor_checkButton, editor_after_sleep. unfold pass_beeps.
  destruct (branch_of (getPin hw PB7) _ _), (branch_of (getPin hw PB6) _ _);
  reflexivity.
Qed.

End PassFacts.

(** ** The editor, step by step *)

Lemma uint16_succ_neq hp increment :
  increment = 1 \/ increment = -1 -> uint16 (hp + increment) <> hp.
Proof.
  intros Hi E. pose proof (uint16_range (hp + increment)) as R. rewrite E in R.
  unfold uint16 in E.
  destruct (Z.eq_dec hp 0) as [->|]; [destruct Hi; subst; cbv in E; lia|].
  destruct (Z.eq_dec hp 65535) as [->|]; [destruct Hi; subst; cbv in E; lia|].
  rewrite Z.mod_small in E; lia.
Qed.

Lemma button_step_stamp level increment nowTime e :
  ed_haveToSaveData (button_step level increment nowTime e) =
  if edits (branch_of level nowTime e) then nowTime else ed_haveToSaveData e.
Proof. unfold button_step. destruct (branch_of level nowTime e); reflexivity. Qed.

Lemma button_step_eeprom level increment nowTime e :
  ed_eepromData (button_step level increment nowTime e) =
  if edits (branch_of level nowTime e)
  then edited increment (ed_eepromData e) else ed_eepromData e.
Proof. unfold button_step. destruct (branch_of level nowTime e); reflexivity. Qed.

Lemma validity_step_stamp e :
  ed_haveToSaveData (validity_step e) = ed_haveToSaveData e.
Proof. unfold validity_step. repeat case_if; reflexivity. Qed.

Lemma release_step_stamp l7 l6 e :
  ed_haveToSaveData (release_step l7 l6 e) = ed_haveToSaveData e.
Proof. unfold release_step. case_if; reflexivity. Qed.

Lemma release_step_eeprom l7 l6 e :
  ed_eepromData (release_step l7 l6 e) = ed_eepromData e.
Proof. unfold release_step. case_if; reflexivity. Qed.

Lemma edit_step_stamp l7 l6 nowTime e :
  ed_haveToSaveData (edit_step l7 l6 nowTime e) =
  if pass_edits l7 l6 nowTime e then nowTime else ed_haveToSaveData e.
Proof.
  unfold edit_step, pass_edits.
  rewrite validity_step_stamp, release_step_stamp, !button_step_stamp.
  destruct (edits (branch_of l7 nowTime e)),
    (edits (branch_of l6 nowTime (button_step l7 1 nowTime e))); reflexivity.
Qed.

Lemma heatPoint_validity_step e :
  MIN_HEAT <= heatPoint (ed_eepromData (validity_step e)) <= MAX_HEAT.
Proof.
  unfold validity_step, MIN_HEAT, MAX_HEAT.
  destruct (Z.gtb_spec (heatPoint (ed_eepromData e)) 450); [cbn; lia|].
  destruct (Z.ltb_spec (heatPoint (ed_eepromData e)) 50); [cbn; lia|lia].
Qed.

Lemma validity_step_in_range e :
  MIN_HEAT <= heatPoint (ed_eepromData e) <= MAX_HEAT -> validity_step e = e.
Proof.
  unfold validity_step, MIN_HEAT, MAX_HEAT. intros H.
  destruct (Z.gtb_spec (heatPoint (ed_eepromData e)) 450); [lia|].
  destruct (Z.ltb_spec (heatPoint (ed_eepromData e)) 50); [lia|reflexivity].
Qed.

Lemma save_step_eeprom nowTime e :
  ed_eepromData (save_step nowTime e) = ed_eepromData e.
Proof. unfold save_step. case_if; reflexivity. Qed.

Lemma no_edit_eeprom l7 l6 nowTime e :
  pass_edits l7 l6 nowTime e = false ->
  MIN_HEAT <= heatPoint (ed_eepromData e) <= MAX_HEAT ->
  ed_eepromData (pass_step l7 l6 nowTime e) = ed_eepromData e.
Proof.
  unfold pass_edits, pass_step, edit_step. intros H R.
  apply orb_false_iff in H. destruct H as [H7 H6].
  rewrite save_step_eeprom.
  assert (ed_eepromData (release_step l7 l6
            (button_step l6 (-1) nowTime (button_step l7 1 nowTime e)))
          = ed_eepromData e) as E.
  { rewrite release_step_eeprom, !button_step_eeprom, H7, H6. reflexivity. }
  rewrite validity_step_in_range; rewrite E; [reflexivity | exact R].
Qed.

Section RunFacts.

Context {symbols : S7C_symbols}.

Lemma final_mainLoops_cons hw hws s :
  final (mainLoops (hw :: hws) s) = final (mainLoops hws (final (mainLoop hw s))).
Proof. cbn [mainLoops]. rewrite final_bind. reflexivity. Qed.

Lemma trace_mainLoops_cons hw hws s :
  trace (mainLoops (hw :: hws) s) =
  trace (mainLoop hw s) ++ trace (mainLoops hws (final (mainLoop hw s))).
Proof. cbn [mainLoops]. rewrite trace_bind. reflexivity. Qed.

Lemma final_mainLoops_app hws1 hws2 s :
  final (mainLoops (hws1 ++ hws2) s) =
  final (mainLoops hws2 (final (mainLoops hws1 s))).
Proof.
  revert s. induction hws1 as [|hw hws1 IH]; intros s; [reflexivity|].
  cbn [app]. rewrite !final_mainLoops_cons. apply IH.
Qed.

Lemma trace_mainLoops_app hws1 hws2 s :
  trace (mainLoops (hws1 ++ hws2) s) =
  trace (mainLoops hws1 s) ++ trace (mainLoops hws2 (final (mainLoops hws1 s))).
Proof.
  revert s. induction hws1 as [|hw hws1 IH]; intros s; [reflexivity|].
  cbn [app]. rewrite !trace_mainLoops_cons, final_mainLoops_cons, IH.
  apply app_assoc.
Qed.

Lemma eeprom_checkButton hw button increment nowTime s :
  _eepromData (final (checkButton hw button ptr_heatPoint increment nowTime s)) =
  ed_eepromData (button_step (getPin hw button) increment nowTime (editor_of s)).
Proof. exact (f_equal ed_eepromData (editor_checkButton hw button increment nowTime s)). Qed.

Lemma eeprom_after_validity hw s :
  _eepromData (after_validity hw s) =
  ed_eepromData
    (edit_step (getPin hw PB7) (getPin hw PB6) (nowTime_of hw) (editor_of s)).
Proof. exact (f_equal ed_eepromData (editor_after_validity hw s)). Qed.

Lemma value_changed_checkButton hw button increment nowTime s :
  increment = 1 \/ increment = -1 ->
  value_changed s (checkButton hw button ptr_heatPoint increment nowTime s) =
  edits (branch_of (getPin hw button) nowTime (editor_of s)).
Proof.
  intros Hi. unfold value_changed. cbn [deref].
  rewrite eeprom_checkButton, button_step_eeprom. cbn [editor_of ed_eepromData].
  destruct (edits _); cbn [edited set_heatPoint heatPoint].
  - apply negb_true_iff, Z.eqb_neq, uint16_succ_neq, Hi.
  - apply negb_false_iff, Z.eqb_refl.
Qed.

Lemma setpoint_edited_spec hw s :
  setpoint_edited hw s =
  pass_edits (getPin hw PB7) (getPin hw PB6) (nowTime_of hw) (editor_of s).
Proof.
  unfold setpoint_edited, minus_button, plus_button, pass_edits.
  rewrite !value_changed_checkButton by auto.
  rewrite editor_checkButton, editor_after_sleep. reflexivity.
Qed.

Lemma writes_mainLoop_editor hw s :
  error_of (adcVal_of hw s) = 0 ->
  let e := edit_step (getPin hw PB7) (getPin hw PB6) (nowTime_of hw) (editor_of s) in
  writes (trace (mainLoop hw s)) =
  if save_due (nowTime_of hw) e then [ed_eepromData e] else [].
Proof.
  intros H e. rewrite writes_mainLoop_ok by assumption.
  unfold pending_save. rewrite writes_checkPendingDataSave.
  rewrite editor_after_validity, eeprom_after_validity. reflexivity.
Qed.

Lemma writes_mainLoop_fault hw s :
  error_of (adcVal_of hw s) <> 0 -> writes (trace (mainLoop hw s)) = [].
Proof. intros H. rewrite mainLoop_fault by assumption. reflexivity. Qed.

End RunFacts.

(** ** Writes of a run: the save debouncer *)

Lemma last_cons_default (t : Z) (ts : list Z) (d : Z) :
  last (t :: ts) d = last ts t.
Proof.
  revert t d. induction ts as [|u ts IH]; intros t d; [reflexivity|].
  change (last (t :: u :: ts) d) with (last (u :: ts) d).
  rewrite (IH u d), (IH u t). reflexivity.
Qed.

Lemma ascending_last prev ts : ascending prev ts = true -> prev <= last ts prev.
Proof.
  revert prev. induction ts as [|t ts IH]; intros prev H; [cbn; lia|].
  cbn [ascending] in H. apply andb_true_iff in H. destruct H as [H1 H2].
  apply Z.leb_le in H1. rewrite last_cons_default.
  specialize (IH t H2). lia.
Qed.

Section Coalescing.

Context {symbols : S7C_symbols}.

Lemma nowTime_of_range hw : 0 <= nowTime_of hw < 4294967296.
Proof. apply uint32_range. Qed.

Lemma last_time_cons prev hw hws :
  last_time prev (hw :: hws) = last_time (nowTime_of hw) hws.
Proof. unfold last_time. cbn [map]. apply last_cons_default. Qed.

(** What a pass without fault does to the stamp, the record and the
    EEPROM. *)
Lemma pass_summary hw s :
  error_of (adcVal_of hw s) = 0 ->
  let stamp := if setpoint_edited hw s then nowTime_of hw
               else _haveToSaveData s in
  let due := negb (stamp =? 0)
             && (uint32 (nowTime_of hw - stamp) >? EEPROM_SAVE_TIMEOUT) in
  _haveToSaveData (final (mainLoop hw s)) = (if due then 0 else stamp)
  /\ writes (trace (mainLoop hw s)) =
       (if due then [_eepromData (final (mainLoop hw s))] else [])
  /\ MIN_HEAT <= heatPoint (_eepromData (final (mainLoop hw s))) <= MAX_HEAT
  /\ (setpoint_edited hw s = false ->
      MIN_HEAT <= heatPoint (_eepromData s) <= MAX_HEAT ->
      _eepromData (final (mainLoop hw s)) = _eepromData s).
Proof.
  intros E stamp due.
  pose proof (editor_mainLoop_ok hw s E) as Ed.
  pose proof (f_equal ed_haveToSaveData Ed) as Es.
  pose proof (f_equal ed_eepromData Ed) as Ee.
  change (_haveToSaveData (final (mainLoop hw s)) =
          ed_haveToSaveData (pass_step (getPin hw PB7) (getPin hw PB6)
                               (nowTime_of hw) (editor_of s))) in Es.
  change (_eepromData (final (mainLoop hw s)) =
          ed_eepromData (pass_step (getPin hw PB7) (getPin hw PB6)
                           (nowTime_of hw) (editor_of s))) in Ee.
  assert (save_due (nowTime_of hw)
            (edit_step (getPin hw PB7) (getPin hw PB6) (nowTime_of hw)
               (editor_of s)) = due) as Hd.
  { unfold save_due. rewrite edit_step_stamp, <- setpoint_edited_spec.
    reflexivity. }
  split; [|split; [|split]].
  - rewrite Es. unfold pass_step, save_step. rewrite Hd.
    destruct due; [reflexivity|].
    rewrite edit_step_stamp, <- setpoint_edited_spec. reflexivity.
  - rewrite writes_mainLoop_editor by assumption. cbv zeta. rewrite Hd.
    destruct due; [|reflexivity].
    rewrite Ee. unfold pass_step. rewrite save_step_eeprom. reflexivity.
  - rewrite Ee. unfold pass_step, edit_step. rewrite save_step_eeprom.
    apply heatPoint_validity_step.
  - intros Hne R. rewrite Ee. rewrite setpoint_edited_spec in Hne.
    apply no_edit_eeprom; assumption.
Qed.

(** Once the stamp [p] is overdue, a run that keeps its edits within
    [EEPROM_SAVE_TIMEOUT] of [p] has no edit at all: it writes nothing and
    keeps the record. *)
Lemma overdue_run hws : forall s t p,
  faultless hws s = true ->
  _haveToSaveData s = 0 ->
  MIN_HEAT <= heatPoint (_eepromData s) <= MAX_HEAT ->
  p <> 0 -> EEPROM_SAVE_TIMEOUT <= t - p ->
  ascending t (map nowTime_of hws) = true ->
  edits_spaced p hws s = true ->
  writes (trace (mainLoops hws s)) = []
  /\ _haveToSaveData (final (mainLoops hws s)) = 0
  /\ _eepromData (final (mainLoops hws s)) = _eepromData s
  /\ last_edit p hws s = p.
Proof.
  induction hws as [|hw hws IH]; intros s t p Hf H0 R Hp Ht Ha Hs.
  - repeat split; assumption.
  - cbn [faultless] in Hf. apply andb_true_iff in Hf. destruct Hf as [E Hf].
    apply Z.eqb_eq in E.
    cbn [map ascending] in Ha. apply andb_true_iff in Ha. destruct Ha as [Ha1 Ha].
    apply Z.leb_le in Ha1.
    cbn [edits_spaced last_edit] in *.
    destruct (pass_summary hw s E) as (S1 & S2 & S3 & S4).
    destruct (setpoint_edited hw s) eqn:Hed.
    + exfalso. apply andb_true_iff in Hs. destruct Hs as [Hs _].
      apply andb_true_iff in Hs. destruct Hs as [_ Hs].
      apply orb_true_iff in Hs. destruct Hs as [Hs|Hs].
      * apply Z.eqb_eq in Hs. contradiction.
      * apply Z.ltb_lt in Hs. lia.
    + rewrite H0 in S1, S2. cbn [Z.eqb negb andb] in S1, S2.
      specialize (S4 eq_refl R).
      destruct (IH (final (mainLoop hw s)) (nowTime_of hw) p Hf S1 S3 Hp
                  ltac:(lia) Ha Hs) as (I1 & I2 & I3 & I4).
      rewrite trace_mainLoops_cons, final_mainLoops_cons, writes_app, S2, I1.
      repeat split; [exact I2 | rewrite I3; exact S4 | exact I4].
Qed.

(** A run that starts with the stamp [p] set and not yet overdue. *)
Lemma pending_run hws : forall s prev p,
  faultless hws s = true ->
  _haveToSaveData s = p ->
  0 < p <= prev ->
  prev - p <= EEPROM_SAVE_TIMEOUT ->
  MIN_HEAT <= heatPoint (_eepromData s) <= MAX_HEAT ->
  ascending prev (map nowTime_of hws) = true ->
  edits_spaced p hws s = true ->
  let L := last_edit p hws s in
  let tn := last_time prev hws in
  L <> 0
  /\ (EEPROM_SAVE_TIMEOUT < tn - L ->
      writes (trace (mainLoops hws s)) = [_eepromData (final (mainLoops hws s))]
      /\ _haveToSaveData (final (mainLoops hws s)) = 0)
  /\ (tn - L <= EEPROM_SAVE_TIMEOUT ->
      writes (trace (mainLoops hws s)) = []
      /\ _haveToSaveData (final (mainLoops hws s)) = L).
Proof.
  induction hws as [|hw hws IH]; intros s prev p Hf Hst Hp Hnd R Ha Hs.
  - cbn [last_edit last_time map last mainLoops]. cbv zeta.
    split; [lia|]. split; intros H; [lia|split; [reflexivity|exact Hst]].
  - cbn [faultless] in Hf. apply andb_true_iff in Hf. destruct Hf as [E Hf].
    apply Z.eqb_eq in E.
    cbn [map ascending] in Ha. apply andb_true_iff in Ha. destruct Ha as [Ha1 Ha].
    apply Z.leb_le in Ha1.
    pose proof (nowTime_of_range hw) as Hr.
    cbn [edits_spaced last_edit]. cbn [edits_spaced] in Hs.
    rewrite last_time_cons.
    rewrite trace_mainLoops_cons, final_mainLoops_cons, writes_app.
    destruct (pass_summary hw s E) as (S1 & S2 & S3 & S4).
    destruct (setpoint_edited hw s) eqn:Hed.
    + (* an edit: the stamp moves to this pass *)
      apply andb_true_iff in Hs. destruct Hs as [Hs Hs'].
      apply andb_true_iff in Hs. destruct Hs as [Hnz _].
      apply negb_true_iff, Z.eqb_neq in Hnz.
      assert (negb (nowTime_of hw =? 0)
              && (uint32 (nowTime_of hw - nowTime_of hw) >? EEPROM_SAVE_TIMEOUT)
              = false) as Hd.
      { rewrite Z.sub_diag. apply andb_false_iff. right. reflexivity. }
      rewrite Hd in S1, S2. rewrite S2. cbn [app].
      apply (IH (final (mainLoop hw s)) (nowTime_of hw) (nowTime_of hw) Hf S1);
        try assumption; unfold EEPROM_SAVE_TIMEOUT; lia.
    + assert (negb (_haveToSaveData s =? 0) = true) as Hnz
        by (apply negb_true_iff, Z.eqb_neq; lia).
      rewrite Hnz, uint32_small in S1, S2 by lia. cbn [andb] in S1, S2.
      specialize (S4 eq_refl R). rewrite Hst in S1, S2.
      destruct (Z.gtb_spec (nowTime_of hw - p) EEPROM_SAVE_TIMEOUT) as [Hdue|Hdue].
      * (* the write *)
        destruct (overdue_run hws (final (mainLoop hw s)) (nowTime_of hw) p
                    Hf S1 S3 ltac:(lia) ltac:(lia) Ha Hs)
          as (I1 & I2 & I3 & I4).
        pose proof (ascending_last _ _ Ha) as Hl.
        fold (last_time (nowTime_of hw) hws) in Hl.
        rewrite I4, S2, I1, I2, I3.
        split; [lia|]. split; intros H; [split; reflexivity | lia].
      * rewrite S2. cbn [app].
        apply (IH (final (mainLoop hw s)) (nowTime_of hw) p Hf S1);
          try assumption; lia.
Qed.

(** A run that starts with no save pending. *)
Lemma idle_run hws : forall s prev,
  faultless hws s = true ->
  _haveToSaveData s = 0 ->
  0 <= prev ->
  ascending prev (map nowTime_of hws) = true ->
  edits_spaced 0 hws s = true ->
  let L := last_edit 0 hws s in
  let tn := last_time prev hws in
  (L = 0 -> writes (trace (mainLoops hws s)) = [])
  /\ (L <> 0 -> EEPROM_SAVE_TIMEOUT < tn - L ->
      writes (trace (mainLoops hws s)) = [_eepromData (final (mainLoops hws s))]
      /\ _haveToSaveData (final (mainLoops hws s)) = 0)
  /\ (L <> 0 -> tn - L <= EEPROM_SAVE_TIMEOUT ->
      writes (trace (mainLoops hws s)) = []
      /\ _haveToSaveData (final (mainLoops hws s)) = L).
Proof.
  induction hws as [|hw hws IH]; intros s prev Hf H0 Hprev Ha Hs.
  - cbn [last_edit]. cbv zeta. split; [reflexivity|]. split; intros H; contradiction.
  - cbn [faultless] in Hf. apply andb_true_iff in Hf. destruct Hf as [E Hf].
    apply Z.eqb_eq in E.
    cbn [map ascending] in Ha. apply andb_true_iff in Ha. destruct Ha as [Ha1 Ha].
    apply Z.leb_le in Ha1.
    pose proof (nowTime_of_range hw) as Hr.
    cbn [edits_spaced last_edit]. cbn [edits_spaced] in Hs.
    rewrite last_time_cons.
    rewrite trace_mainLoops_cons, final_mainLoops_cons, writes_app.
    destruct (pass_summary hw s E) as (S1 & S2 & S3 & S4).
    destruct (setpoint_edited hw s) eqn:Hed.
    + apply andb_true_iff in Hs. destruct Hs as [Hs Hs'].
      apply andb_true_iff in Hs. destruct Hs as [Hnz _].
      apply negb_true_iff, Z.eqb_neq in Hnz.
      assert (negb (nowTime_of hw =? 0)
              && (uint32 (nowTime_of hw - nowTime_of hw) >? EEPROM_SAVE_TIMEOUT)
              = false) as Hd.
      { rewrite Z.sub_diag. apply andb_false_iff. right. reflexivity. }
      rewrite Hd in S1, S2. rewrite S2. cbn [app].
      destruct (pending_run hws (final (mainLoop hw s)) (nowTime_of hw)
                  (nowTime_of hw) Hf S1)
        as (P1 & P2 & P3); try assumption;
        try (unfold EEPROM_SAVE_TIMEOUT; lia).
      split; [intros H; contradiction|].
      split; intros _; assumption.
    + rewrite H0 in S1, S2. cbn [Z.eqb negb andb] in S1, S2.
      rewrite S2. cbn [app].
      apply (IH (final (mainLoop hw s)) (nowTime_of hw) Hf S1); [lia | exact Ha | exact Hs].
Qed.

End Coalescing.

(** ** Holding one button below the long-press threshold *)

Lemma button_step_waiting increment t e :
  uint32 (t - armed_longPressTimer t e) <= LONG_PRESS ->
  uint32 (t - armed_buttonTimer t e) <= SHORT_PRESS ->
  branch_of LOW t e = Waiting
  /\ button_step LOW increment t e =
       {| ed_buttonTimer := armed_buttonTimer t e;
          ed_longPressTimer := armed_longPressTimer t e;
          ed_haveToSaveData := ed_haveToSaveData e;
          ed_eepromData := ed_eepromData e;
          ed_skipCounter := ed_skipCounter e |}.
Proof.
  intros Hl Hs.
  assert (branch_of LOW t e = Waiting) as B.
  { unfold branch_of. cbn [LOW Z.eqb].
    destruct (Z.gtb_spec (uint32 (t - armed_longPressTimer t e)) LONG_PRESS); [lia|].
    destruct (Z.gtb_spec (uint32 (t - armed_buttonTimer t e)) SHORT_PRESS); [lia|].
    reflexivity. }
  split; [exact B|]. unfold button_step. rewrite B. reflexivity.
Qed.

Lemma button_step_short increment t e :
  uint32 (t - armed_longPressTimer t e) <= LONG_PRESS ->
  SHORT_PRESS < uint32 (t - armed_buttonTimer t e) ->
  branch_of LOW t e = ShortPressEdit
  /\ button_step LOW increment t e =
       {| ed_buttonTimer := 0;
          ed_longPressTimer := armed_longPressTimer t e;
          ed_haveToSaveData := t;
          ed_eepromData := edited increment (ed_eepromData e);
          ed_skipCounter := ed_skipCounter e |}.
Proof.
  intros Hl Hs.
  assert (branch_of LOW t e = ShortPressEdit) as B.
  { unfold branch_of. cbn [LOW Z.eqb].
    destruct (Z.gtb_spec (uint32 (t - armed_longPressTimer t e)) LONG_PRESS); [lia|].
    destruct (Z.gtb_spec (uint32 (t - armed_buttonTimer t e)) SHORT_PRESS); [|lia].
    reflexivity. }
  split; [exact B|]. unfold button_step. rewrite B. reflexivity.
Qed.

Lemma save_step_not_due t e : save_due t e = false -> save_step t e = e.
Proof. intros H. unfold save_step. rewrite H. reflexivity. Qed.

Lemma save_due_recent t e :
  0 <= t - ed_haveToSaveData e <= EEPROM_SAVE_TIMEOUT -> save_due t e = false.
Proof.
  intros H. unfold save_due. apply andb_false_iff. right.
  unfold EEPROM_SAVE_TIMEOUT in *. rewrite uint32_small by lia.
  destruct (Z.gtb_spec (t - ed_haveToSaveData e) 2000); [lia|reflexivity].
Qed.

(** [save_step] leaves the timers and the record alone. *)
Lemma save_step_frame t e :
  ed_buttonTimer (save_step t e) = ed_buttonTimer e
  /\ ed_longPressTimer (save_step t e) = ed_longPressTimer e
  /\ ed_eepromData (save_step t e) = ed_eepromData e.
Proof. unfold save_step. destruct (save_due t e); repeat split. Qed.

Lemma armed_buttonTimer_set t e :
  ed_buttonTimer e <> 0 -> armed_buttonTimer t e = ed_buttonTimer e.
Proof.
  intros H. unfold armed_buttonTimer.
  destruct (Z.eqb_spec (ed_buttonTimer e) 0); [contradiction|reflexivity].
Qed.

Lemma armed_buttonTimer_unset t e :
  ed_buttonTimer e = 0 -> armed_buttonTimer t e = t.
Proof. intros H. unfold armed_buttonTimer. rewrite H. reflexivity. Qed.

Lemma armed_longPressTimer_set t e :
  ed_longPressTimer e <> 0 -> armed_longPressTimer t e = ed_longPressTimer e.
Proof.
  intros H. unfold armed_longPressTimer.
  destruct (Z.eqb_spec (ed_longPressTimer e) 0); [contradiction|reflexivity].
Qed.

Lemma armed_longPressTimer_unset t e :
  ed_longPressTimer e = 0 -> armed_longPressTimer t e = armed_buttonTimer t e.
Proof. intros H. unfold armed_longPressTimer. rewrite H. reflexivity. Qed.

(** The first pass of a hold arms both timers. *)
Lemma idle_pass_arm increment t0 d e :
  ed_buttonTimer e = 0 -> ed_longPressTimer e = 0 -> ed_eepromData e = d ->
  0 < t0 < 4294967296 ->
  MIN_HEAT <= heatPoint d <= MAX_HEAT ->
  armed t0 d (save_step t0 (validity_step (button_step LOW increment t0 e)))
  /\ branch_of LOW t0 e = Waiting.
Proof.
  intros Hb Hl Hd Ht R.
  pose proof (armed_buttonTimer_unset t0 e Hb) as Ab.
  pose proof (armed_longPressTimer_unset t0 e Hl) as Al. rewrite Ab in Al.
  destruct (button_step_waiting increment t0 e) as [B S].
  { rewrite Al, Z.sub_diag. unfold LONG_PRESS. cbv. discriminate. }
  { rewrite Ab, Z.sub_diag. unfold SHORT_PRESS. cbv. discriminate. }
  split; [|exact B].
  rewrite S, Ab, Al. rewrite validity_step_in_range by (cbn; rewrite Hd; exact R).
  destruct (save_step_frame t0
              {| ed_buttonTimer := t0; ed_longPressTimer := t0;
                 ed_haveToSaveData := ed_haveToSaveData e;
                 ed_eepromData := ed_eepromData e;
                 ed_skipCounter := ed_skipCounter e |}) as (F1 & F2 & F3).
  unfold armed. rewrite F1, F2, F3. cbn. auto.
Qed.

(** A pass of the hold before the short-press threshold. *)
Lemma armed_pass_wait increment t0 t d e :
  armed t0 d e ->
  0 < t0 <= t -> t - t0 <= SHORT_PRESS -> t < 4294967296 ->
  MIN_HEAT <= heatPoint d <= MAX_HEAT ->
  armed t0 d (save_step t (validity_step (button_step LOW increment t e)))
  /\ branch_of LOW t e = Waiting.
Proof.
  intros (Hb & Hl & Hd) Ht Hw Hr R.
  pose proof (armed_buttonTimer_set t e ltac:(lia)) as Ab.
  pose proof (armed_longPressTimer_set t e ltac:(lia)) as Al.
  rewrite Hb in Ab. rewrite Hl in Al.
  unfold SHORT_PRESS in Hw.
  destruct (button_step_waiting increment t e) as [B S].
  { rewrite Al, uint32_small by lia. unfold LONG_PRESS. lia. }
  { rewrite Ab, uint32_small by lia. unfold SHORT_PRESS. lia. }
  split; [|exact B].
  rewrite S, Ab, Al. rewrite validity_step_in_range by (cbn; rewrite Hd; exact R).
  destruct (save_step_frame t
              {| ed_buttonTimer := t0; ed_longPressTimer := t0;
                 ed_haveToSaveData := ed_haveToSaveData e;
                 ed_eepromData := ed_eepromData e;
                 ed_skipCounter := ed_skipCounter e |}) as (F1 & F2 & F3).
  unfold armed. rewrite F1, F2, F3. cbn. auto.
Qed.

(** The pass of the hold that takes the short-press branch. *)
Lemma armed_pass_fire increment t0 t d e :
  armed t0 d e ->
  0 < t0 -> SHORT_PRESS < t - t0 <= LONG_PRESS -> t < 4294967296 ->
  MIN_HEAT <= heatPoint d + increment <= MAX_HEAT ->
  fired t0 t t (set_heatPoint (heatPoint d + increment) d)
    (save_step t (validity_step (button_step LOW increment t e)))
  /\ branch_of LOW t e = ShortPressEdit.
Proof.
  intros (Hb & Hl & Hd) Ht Hw Hr R.
  pose proof (armed_buttonTimer_set t e ltac:(lia)) as Ab.
  pose proof (armed_longPressTimer_set t e ltac:(lia)) as Al.
  rewrite Hb in Ab. rewrite Hl in Al.
  unfold SHORT_PRESS, LONG_PRESS in Hw.
  destruct (button_step_short increment t e) as [B S].
  { rewrite Al, uint32_small by lia. unfold LONG_PRESS. lia. }
  { rewrite Ab, uint32_small by lia. unfold SHORT_PRESS. lia. }
  split; [|exact B].
  rewrite S, Al, Hd. unfold edited.
  rewrite (uint16_small (heatPoint d + increment))
    by (unfold MIN_HEAT, MAX_HEAT in R; lia).
  rewrite validity_step_in_range by (cbn; exact R).
  rewrite save_step_not_due by (apply save_due_recent; cbn; unfold EEPROM_SAVE_TIMEOUT; lia).
  unfold fired, SHORT_PRESS. cbn. repeat split; lia.
Qed.

(** A pass of the hold after the short-press branch, while the hold is
    no longer than [2 * SHORT_PRESS + 1]. *)
Lemma fired_pass increment t0 tf t' t d e :
  fired t0 tf t' d e ->
  0 < t0 -> t' <= t <= t0 + (2 * SHORT_PRESS + 1) -> t < 4294967296 ->
  MIN_HEAT <= heatPoint d <= MAX_HEAT ->
  fired t0 tf t d (save_step t (validity_step (button_step LOW increment t e)))
  /\ branch_of LOW t e = Waiting.
Proof.
  intros (Hl & Hb & Hs & Hf & Hd) Ht Hw Hr R.
  unfold SHORT_PRESS in *.
  pose proof (armed_longPressTimer_set t e ltac:(lia)) as Al. rewrite Hl in Al.
  assert (t0 + 700 < armed_buttonTimer t e <= t) as Ab.
  { destruct Hb as [Hb|Hb].
    - rewrite (armed_buttonTimer_unset t e Hb). lia.
    - rewrite (armed_buttonTimer_set t e) by lia. lia. }
  destruct (button_step_waiting increment t e) as [B S].
  { rewrite Al, uint32_small by lia. unfold LONG_PRESS. lia. }
  { rewrite uint32_small by lia. unfold SHORT_PRESS. lia. }
  split; [|exact B].
  rewrite S, Al. rewrite validity_step_in_range by (cbn; rewrite Hd; exact R).
  rewrite save_step_not_due
    by (apply save_due_recent; cbn; unfold EEPROM_SAVE_TIMEOUT; lia).
  unfold fired, SHORT_PRESS. cbn. repeat split; try lia; try assumption.
Qed.

Lemma branch_of_released level t e :
  (level =? LOW) = false -> branch_of level t e = NotPressed.
Proof. intros H. unfold branch_of. rewrite H. reflexivity. Qed.

Lemma button_step_released level increment t e :
  (level =? LOW) = false -> button_step level increment t e = e.
Proof.
  intros H. unfold button_step. rewrite branch_of_released by exact H.
  reflexivity.
Qed.

Section HoldFacts.

Context {symbols : S7C_symbols}.

(** A pass with one button down and the other up. *)
Lemma held_pass button hw s :
  error_of (adcVal_of hw s) = 0 ->
  only_held button hw = true ->
  editor_of (final (mainLoop hw s)) =
    save_step (nowTime_of hw)
      (validity_step
         (button_step LOW (increment_of button) (nowTime_of hw) (editor_of s)))
  /\ beeps (trace (mainLoop hw s)) =
       match branch_of LOW (nowTime_of hw) (editor_of s) with
       | ShortPressEdit => 1%nat
       | _ => 0%nat
       end.
Proof.
  intros E H.
  rewrite editor_mainLoop_ok, beeps_mainLoop_ok by assumption.
  unfold pass_step, edit_step, pass_beeps, release_step.
  destruct button; try discriminate H; cbn [only_held increment_of] in H;
    apply andb_true_iff in H; destruct H as [H1 H2].
  - (* PB6 down, PB7 up *)
    apply negb_true_iff in H1. pose proof H2 as H2'. apply Z.eqb_eq in H2'.
    rewrite (button_step_released _ 1 _ _ H1), (branch_of_released _ _ _ H1).
    rewrite H1, H2. cbn [orb]. rewrite H2'. split; reflexivity.
  - (* PB7 down, PB6 up *)
    apply negb_true_iff in H2. pose proof H1 as H1'. apply Z.eqb_eq in H1'.
    rewrite (button_step_released _ (-1) _ _ H2), (branch_of_released _ _ _ H2).
    rewrite H1, H2. cbn [orb]. rewrite H1'. split; [reflexivity|].
    apply Nat.add_0_r.
Qed.

(** A pass with both buttons up. *)
Lemma released_pass hw s :
  error_of (adcVal_of hw s) = 0 ->
  both_released hw = true ->
  MIN_HEAT <= heatPoint (_eepromData s) <= MAX_HEAT ->
  _eepromData (final (mainLoop hw s)) = _eepromData s
  /\ _buttonTimer (final (mainLoop hw s)) = 0
  /\ _longPressTimer (final (mainLoop hw s)) = 0
  /\ beeps (trace (mainLoop hw s)) = 0%nat.
Proof.
  intros E H R. unfold both_released in H.
  apply andb_true_iff in H. destruct H as [H7 H6].
  apply negb_true_iff in H7, H6.
  pose proof (editor_mainLoop_ok hw s E) as Ed.
  rewrite beeps_mainLoop_ok by assumption.
  unfold pass_step, edit_step, pass_beeps, release_step in *.
  rewrite (button_step_released _ 1 _ _ H7), (branch_of_released _ _ _ H7) in *.
  rewrite (button_step_released _ (-1) _ _ H6), (branch_of_released _ _ _ H6) in *.
  rewrite H7, H6 in Ed. cbn [orb] in Ed.
  rewrite validity_step_in_range in Ed by (cbn; exact R).
  destruct (save_step_frame (nowTime_of hw)
              {| ed_buttonTimer := 0; ed_longPressTimer := 0;
                 ed_haveToSaveData := ed_haveToSaveData (editor_of s);
                 ed_eepromData := ed_eepromData (editor_of s);
                 ed_skipCounter := ed_skipCounter (editor_of s) |})
    as (F1 & F2 & F3).
  rewrite <- Ed in F1, F2, F3.
  repeat split; assumption.
Qed.

(** The rest of a hold after the short-press branch has run. *)
Lemma fired_run button t0 tf d hold : forall s t,
  faultless hold s = true ->
  forallb (only_held button) hold = true ->
  ascending t (map nowTime_of hold) = true ->
  last_time t hold <= t0 + (2 * SHORT_PRESS + 1) ->
  0 < t0 ->
  MIN_HEAT <= heatPoint d <= MAX_HEAT ->
  fired t0 tf t d (editor_of s) ->
  fired t0 tf (last_time t hold) d (editor_of (final (mainLoops hold s)))
  /\ beeps (trace (mainLoops hold s)) = 0%nat.
Proof.
  induction hold as [|hw hold IH]; intros s t Hf Hh Ha Hl Ht0 R F.
  - split; [exact F|reflexivity].
  - cbn [faultless] in Hf. apply andb_true_iff in Hf. destruct Hf as [E Hf].
    apply Z.eqb_eq in E.
    cbn [forallb] in Hh. apply andb_true_iff in Hh. destruct Hh as [Hh1 Hh].
    cbn [map ascending] in Ha. apply andb_true_iff in Ha. destruct Ha as [Ha1 Ha].
    apply Z.leb_le in Ha1.
    rewrite last_time_cons in *.
    pose proof (ascending_last _ _ Ha) as Hlast.
    fold (last_time (nowTime_of hw) hold) in Hlast.
    pose proof (nowTime_of_range hw) as Hr.
    destruct (held_pass button hw s E Hh1) as [Ed Bp].
    destruct (fired_pass (increment_of button) t0 tf t (nowTime_of hw) d
                (editor_of s) F Ht0 ltac:(lia) ltac:(lia) R) as [F' B].
    rewrite <- Ed in F'. rewrite B in Bp.
    destruct (IH _ _ Hf Hh Ha Hl Ht0 R F') as [F'' Bq].
    rewrite final_mainLoops_cons, trace_mainLoops_cons, beeps_app, Bp, Bq.
    split; [exact F''|reflexivity].
Qed.

(** A hold from its second pass on: the short-press branch runs once. *)
Lemma armed_run button t0 d hold : forall s t,
  faultless hold s = true ->
  forallb (only_held button) hold = true ->
  ascending t (map nowTime_of hold) = true ->
  0 < t0 <= t -> t <= t0 + SHORT_PRESS ->
  t0 + SHORT_PRESS < last_time t hold <= t0 + (2 * SHORT_PRESS + 1) ->
  MIN_HEAT <= heatPoint d <= MAX_HEAT ->
  MIN_HEAT <= heatPoint d + increment_of button <= MAX_HEAT ->
  armed t0 d (editor_of s) ->
  (exists tf,
     fired t0 tf (last_time t hold)
       (set_heatPoint (heatPoint d + increment_of button) d)
       (editor_of (final (mainLoops hold s))))
  /\ beeps (trace (mainLoops hold s)) = 1%nat.
Proof.
  induction hold as [|hw hold IH]; intros s t Hf Hh Ha Ht0 Ht Hl R R' A.
  - cbn [last_time map last] in Hl. lia.
  - cbn [faultless] in Hf. apply andb_true_iff in Hf. destruct Hf as [E Hf].
    apply Z.eqb_eq in E.
    cbn [forallb] in Hh. apply andb_true_iff in Hh. destruct Hh as [Hh1 Hh].
    cbn [map ascending] in Ha. apply andb_true_iff in Ha. destruct Ha as [Ha1 Ha].
    apply Z.leb_le in Ha1.
    rewrite last_time_cons in *.
    pose proof (ascending_last _ _ Ha) as Hlast.
    fold (last_time (nowTime_of hw) hold) in Hlast.
    pose proof (nowTime_of_range hw) as Hr.
    destruct (held_pass button hw s E Hh1) as [Ed Bp].
    rewrite final_mainLoops_cons, trace_mainLoops_cons, beeps_app.
    destruct (Z_le_gt_dec (nowTime_of hw - t0) SHORT_PRESS) as [Hw|Hw].
    + destruct (armed_pass_wait (increment_of button) t0 (nowTime_of hw) d
                  (editor_of s) A ltac:(lia) Hw ltac:(lia) R) as [A' B].
      rewrite <- Ed in A'. rewrite B in Bp. rewrite Bp.
      apply (IH _ _ Hf Hh Ha); try assumption; lia.
    + unfold SHORT_PRESS in *.
      destruct (armed_pass_fire (increment_of button) t0 (nowTime_of hw) d
                  (editor_of s) A ltac:(lia)
                  ltac:(unfold SHORT_PRESS, LONG_PRESS; lia) ltac:(lia) R')
        as [F B].
      rewrite <- Ed in F. rewrite B in Bp. rewrite Bp.
      destruct (fired_run button t0 (nowTime_of hw)
                  (set_heatPoint (heatPoint d + increment_of button) d) hold
                  _ _ Hf Hh Ha ltac:(unfold SHORT_PRESS; lia) ltac:(lia) R' F)
        as [F' Bq].
      rewrite Bq. split; [exists (nowTime_of hw); exact F'|reflexivity].
Qed.

End HoldFacts.

(** ** The log of a pass: display and alarm *)

Lemma digits_app t1 t2 : digits (t1 ++ t2) = digits t1 ++ digits t2.
Proof.
  induction t1 as [|e t1 IH]; [reflexivity|].
  destruct e; cbn; rewrite IH; reflexivity.
Qed.

Lemma symbols_set_app t1 t2 :
  symbols_set (t1 ++ t2) = symbols_set t1 ++ symbols_set t2.
Proof.
  induction t1 as [|e t1 IH]; [reflexivity|].
  destruct e; cbn; rewrite IH; reflexivity.
Qed.

Lemma alarms_app t1 t2 : alarms (t1 ++ t2) = (alarms t1 + alarms t2)%nat.
Proof.
  induction t1 as [|e t1 IH]; [reflexivity|].
  destruct e; cbn; rewrite IH; reflexivity.
Qed.

Lemma checkButton_log hw button increment nowTime s a s' t :
  checkButton hw button ptr_heatPoint increment nowTime s = (a, s', t) ->
  t = [] \/ t = [beep].
Proof.
  intros E.
  pose proof (trace_checkButton hw button increment nowTime s) as H.
  rewrite E in H. cbn [trace snd] in H. rewrite H.
  destruct (branch_of _ _ _); auto.
Qed.

(** The execution steps of the pass lemmas, for the lemmas below. *)
Ltac call_of f :=
  match goal with
  | |- context [match ?c with pair _ _ => _ end] =>
      match c with
      | context [f] =>
          lazymatch c with
          | context [match _ with pair _ _ => _ end] => fail
          | _ => let a := fresh "a" in let s' := fresh "s" in
                 let t := fresh "t" in let E := fresh "E" in
                 destruct c as [[a s'] t] eqn:E
          end
      end
  end; lazy beta iota zeta delta [final result trace fst snd].

Ltac test_of :=
  match goal with
  | |- context [match (if ?c then _ else _) _ with pair _ _ => _ end] =>
      let E := fresh "E" in destruct c eqn:E
  end; lazy beta iota zeta delta [final result trace fst snd].

Ltac open_mainLoop :=
  lazy beta iota zeta delta [mainLoop bind get modify emit ret when].

Section DisplayFacts.

Context {symbols : S7C_symbols}.

Lemma checkPendingDataSave_log nowTime s a s' t :
  checkPendingDataSave nowTime s = (a, s', t) ->
  t = [] \/
  t = [S7C_setSymbol 3 SYM_SAVE; eeprom_write EEPROM_START_ADDR (_eepromData s)].
Proof.
  intros E. destruct (save_due nowTime (editor_of s)) eqn:H.
  - rewrite checkPendingDataSave_due in E by assumption.
    injection E as _ _ <-. auto.
  - rewrite checkPendingDataSave_idle in E by assumption.
    injection E as _ _ <-. auto.
Qed.

(** The display and alarm calls of a pass without fault. *)
Lemma mainLoop_ok_display hw s :
  error_of (adcVal_of hw s) = 0 ->
  digits (trace (mainLoop hw s)) =
    (if SleepState_eqb (sleep_of hw s) DEEPSLEEP then []
     else [(0, shown_of hw s / 100); (1, (shown_of hw s mod 100) / 10);
           (2, shown_of hw s mod 10)])
  /\ alarms (trace (mainLoop hw s)) =
       (if SleepState_eqb
             (oldSleep (final (checkSleep hw (nowTime_of hw) (after_sensors hw s))))
             (sleep_of hw s)
        then 0%nat else 1%nat)
  /\ (exists saving,
        symbols_set (trace (mainLoop hw s)) =
          (if SleepState_eqb (sleep_of hw s) DEEPSLEEP
           then [(0, 0); (1, 0); (2, 0)] else [])
          ++ (3, displaySymbol_of hw s) :: saving
        /\ (saving = [] \/ saving = [(3, SYM_SAVE)])).
Proof.
  intros H. apply Z.eqb_eq in H.
  unfold shown_of, displaySymbol_of, shows_heatPoint, tempInRange_of, pwmVal_in,
    after_validity, after_buttons,
    action_of, minus_button, plus_button, after_sleep, sleep_of,
    after_sensors, adcVal_of, adcUIn_of, nowTime_of in *.
  open_mainLoop. rewrite H. change (negb true) with false.
  lazy beta iota zeta delta [final result trace fst snd].
  call_of @checkSleep.
  apply checkSleep_outcome in E as Et; subst.
  test_of;
    (call_of @checkButton; apply checkButton_log in E1 as L7;
     call_of @checkButton;
     match goal with
     | E' : checkButton _ PB6 _ _ _ _ = _ |- _ =>
         apply checkButton_log in E' as L6
     end;
     test_of;
     (call_of @checkHeatPointValidity;
      match goal with
      | E' : checkHeatPointValidity _ = _ |- _ =>
          apply checkHeatPointValidity_outcome in E' as Ev; subst
      end;
      test_of;
      (call_of @checkPendingDataSave;
       match goal with
       | E' : checkPendingDataSave _ _ = _ |- _ =>
           apply checkPendingDataSave_log in E' as L5
       end;
       repeat match goal with
       | E' : negb _ = true |- _ => apply negb_true_iff in E'
       | E' : negb _ = false |- _ => apply negb_false_iff in E'
       end;
       repeat match goal with
       | E' : SleepState_eqb _ _ = _ |- _ => rewrite E'; clear E'
       end;
       destruct L7 as [-> | ->], L6 as [-> | ->], L5 as [-> | ->];
       cbn [digits alarms symbols_set app];
       (split; [reflexivity|]; split; [reflexivity|];
        eexists; split; [reflexivity|]; auto)))).
Qed.

End DisplayFacts.

(** * The claims *)

(** An example board: the symbol masks as single bits. *)
#[local] Instance example_symbols : S7C_symbols :=
  {| SYM_CELS := 1; SYM_TEMP := 2; SYM_MOON := 4; SYM_SUN := 8; SYM_SAVE := 16 |}.

(** ** Fault detector *)

Lemma error_of_in_range (r : Z) : 10 <= r <= 1000 -> error_of r = 0.
Proof.
  intros H. unfold error_of.
  destruct (Z.ltb_spec r 10); [lia|].
  destruct (Z.gtb_spec r 1000); [lia|reflexivity].
Qed.

(** C1. For every filtered temperature reading [r]: [r < 10] gives fault
    code 1 (sensor shorted), [r > 1000] gives fault code 2 (sensor open or
    broken), and [10 <= r <= 1000] gives no fault (code 0). *)
Theorem C1_fault_code (r : Z) :
  (r < 10 -> error_of r = 1) /\
  (r > 1000 -> error_of r = 2) /\
  (10 <= r <= 1000 -> error_of r = 0).
Proof.
  unfold error_of.
  destruct (Z.ltb_spec r 10), (Z.gtb_spec r 1000); repeat split; intros; lia.
Qed.

Lemma C1_fault_code_witness :
  error_of 5 = 1 /\ error_of 1001 = 2 /\ error_of 10 = 0 /\ error_of 1000 = 0.
Proof.
  split; [|split; [|split]].
  - apply (proj1 (C1_fault_code 5)); lia.
  - apply (proj1 (proj2 (C1_fault_code 1001))); lia.
  - apply (proj2 (proj2 (C1_fault_code 10))); lia.
  - apply (proj2 (proj2 (C1_fault_code 1000))); lia.
Defined.

Section Claims.

Context {symbols : S7C_symbols}.

(** C2. In a pass that detects a fault, [mainLoop] sets the PWM duty to
    100, shows "ER" with the fault code in digit 2, refreshes the display,
    beeps and returns: the log holds these five calls and nothing else, and
    of the state only the two filter memories change, so the setpoint, the
    sleep timer, the button timers and the pending-save stamp are as
    before. *)
Theorem C2_fault_pass (hw : input) (s : state) :
  error_of (adcVal_of hw s) <> 0 ->
  trace (mainLoop hw s) =
    [PWM_duty PWM_CH1 100; S7C_setChars "ER";
     S7C_setDigit 2 (error_of (adcVal_of hw s));
     S7C_refreshDisplay (nowTime_of hw); beep]
  /\ final (mainLoop hw s) =
       set_oldADCVal (adcVal_of hw s) (set_oldADCUI (adcUIn_of hw s) s)
  /\ _eepromData (final (mainLoop hw s)) = _eepromData s
  /\ _sleepTimer (final (mainLoop hw s)) = _sleepTimer s
  /\ oldSensorState (final (mainLoop hw s)) = oldSensorState s
  /\ oldSleep (final (mainLoop hw s)) = oldSleep s
  /\ _buttonTimer (final (mainLoop hw s)) = _buttonTimer s
  /\ _longPressTimer (final (mainLoop hw s)) = _longPressTimer s
  /\ skipCounter (final (mainLoop hw s)) = skipCounter s
  /\ _heatPointDisplayTime (final (mainLoop hw s)) = _heatPointDisplayTime s
  /\ _haveToSaveData (final (mainLoop hw s)) = _haveToSaveData s.
Proof.
  intros H. rewrite mainLoop_fault by assumption.
  repeat split.
Qed.

(** ** Heater duty *)


Lemma pwmVal_of_range sleep diff : 40 <= pwmVal_of sleep diff <= 100.
Proof.
  unfold pwmVal_of.
  destruct (SleepState_eqb sleep DEEPSLEEP); cbn [orb].
  - rewrite int16_small; lia.
  - destruct (Z.ltb_spec diff 0); [rewrite int16_small; lia|].
    destruct (Z.gtb_spec diff 50); rewrite int16_small; lia.
Qed.

(** C3. In every pass without fault (filtered reading in [10, 1000]) the
    loop calls [PWM_duty] once, with the duty computed in 16-bit
    arithmetic from the sleep state, the setpoint and the reading, and
    that duty is in [40, 100], whatever the state (sleep state, setpoint)
    the pass starts from. *)
Theorem C3_duty_range (hw : input) (s : state) :
  10 <= adcVal_of hw s <= 1000 ->
  duties (trace (mainLoop hw s)) = [pwmVal_in hw s]
  /\ pwmVal_in hw s =
       pwmVal_of (sleep_of hw s)
         (diff_of (sleep_of hw s) (heatPoint (_eepromData s))
            (displayVal_of (adcVal_of hw s)))
  /\ 40 <= pwmVal_in hw s <= 100.
Proof.
  intros H.
  assert (error_of (adcVal_of hw s) = 0) as E
    by (apply error_of_in_range; exact H).
  split; [apply duties_mainLoop_ok; exact E|].
  split; [|apply pwmVal_of_range].
  unfold pwmVal_in.
  pose proof (editor_after_sleep hw s) as Ed.
  apply (f_equal ed_eepromData) in Ed. cbn [editor_of ed_eepromData] in Ed.
  rewrite Ed. reflexivity.
Qed.

(** C4, as amended.  For a fixed sleep state and setpoint, with
    [diff = target - T] (the target is SLEEP_TEMP in SLEEP, the setpoint
    otherwise): in DEEPSLEEP the duty is 100 at every temperature;
    otherwise the duty is 50 while [diff > 50], [90 - diff] on the ramp
    [0 <= diff <= 50] (40 at [diff = 50], 90 at [diff = 0]) and 100 once
    [diff < 0].  So for two temperatures [T1 <= T2] the duty is the same
    while [diff > 50], and from [diff <= 50] on it does not fall as the
    temperature rises. *)
Theorem C4_duty_ramp (sleep : SleepState) (hp T1 T2 : Z) :
  0 <= hp < 32768 -> 0 <= T1 <= T2 -> T2 < 32768 ->
  let target := if SleepState_eqb sleep SLEEP then SLEEP_TEMP else hp in
  let d1 := diff_of sleep hp T1 in
  let d2 := diff_of sleep hp T2 in
  let duty1 := pwmVal_of sleep d1 in
  let duty2 := pwmVal_of sleep d2 in
  (d1 = target - T1 /\ d2 = target - T2)
  /\ (sleep = DEEPSLEEP -> duty1 = 100 /\ duty2 = 100)
  /\ (sleep <> DEEPSLEEP ->
      (50 < d1 -> duty1 = 50) /\ (50 < d2 -> duty2 = 50)
      /\ (0 <= d1 <= 50 -> duty1 = 90 - d1)
      /\ (0 <= d2 <= 50 -> duty2 = 90 - d2)
      /\ (d1 < 0 -> duty1 = 100) /\ (d2 < 0 -> duty2 = 100))
  /\ (50 < d2 -> duty1 = duty2)
  /\ (d1 <= 50 -> duty1 <= duty2).
Proof.
  intros Hhp HT HT2 target d1 d2 duty1 duty2.
  assert (d1 = target - T1) as E1.
  { unfold d1, target, diff_of, SLEEP_TEMP.
    destruct (SleepState_eqb sleep SLEEP); apply int16_uint16_sub; lia. }
  assert (d2 = target - T2) as E2.
  { unfold d2, target, diff_of, SLEEP_TEMP.
    destruct (SleepState_eqb sleep SLEEP); apply int16_uint16_sub; lia. }
  split; [split; assumption|].
  assert (d2 <= d1) as Hd by lia.
  unfold duty1, duty2. clearbody d1 d2 target. clear E1 E2.
  unfold pwmVal_of.
  destruct sleep; cbn [SleepState_eqb orb];
    repeat match goal with
    | |- context [?a <? ?b] => destruct (Z.ltb_spec a b)
    | |- context [?a >? ?b] => destruct (Z.gtb_spec a b)
    end;
    repeat split; intros; try congruence;
    rewrite ?int16_small by lia; lia.
Qed.

End Claims.

Lemma C2_fault_pass_witness :
  error_of (adcVal_of (sample 1 5 HIGH HIGH HIGH) power_on) <> 0
  /\ trace (mainLoop (sample 1 5 HIGH HIGH HIGH) power_on) =
       [PWM_duty PWM_CH1 100; S7C_setChars "ER"; S7C_setDigit 2 1;
        S7C_refreshDisplay 1; beep].
Proof.
  assert (error_of (adcVal_of (sample 1 5 HIGH HIGH HIGH) power_on) <> 0) as H
    by (vm_compute; discriminate).
  split; [exact H|].
  exact (proj1 (C2_fault_pass (sample 1 5 HIGH HIGH HIGH) power_on H)).
Defined.

Lemma C3_duty_range_witness :
  10 <= adcVal_of (sample 1 100 HIGH HIGH HIGH) (set_oldADCVal 100 power_on) <= 1000
  /\ duties (trace (mainLoop (sample 1 100 HIGH HIGH HIGH)
                      (set_oldADCVal 100 power_on))) = [86].
Proof.
  assert (10 <= adcVal_of (sample 1 100 HIGH HIGH HIGH)
                  (set_oldADCVal 100 power_on) <= 1000) as H
    by (vm_compute; split; discriminate).
  split; [exact H|].
  exact (proj1 (C3_duty_range (sample 1 100 HIGH HIGH HIGH)
                  (set_oldADCVal 100 power_on) H)).
Defined.

(** C4, as the claim has it, fails: with the setpoint at 300 and no sleep,
    a temperature rising from 250 to 251, still below the target, raises
    the duty from 40 to 41. *)
Lemma C4_counterexample :
  ~ (forall (sleep : SleepState) (hp T1 T2 : Z),
       MIN_HEAT <= hp <= MAX_HEAT -> 0 <= T1 <= T2 ->
       0 <= diff_of sleep hp T2 ->
       pwmVal_of sleep (diff_of sleep hp T2) <= pwmVal_of sleep (diff_of sleep hp T1)).
Proof.
  intros H.
  assert (pwmVal_of NOSLEEP (diff_of NOSLEEP 300 251) = 41) as E2 by reflexivity.
  assert (pwmVal_of NOSLEEP (diff_of NOSLEEP 300 250) = 40) as E1 by reflexivity.
  specialize (H NOSLEEP 300 250 251).
  rewrite E1, E2 in H.
  assert (41 <= 40) as F; [|lia].
  apply H; [unfold MIN_HEAT, MAX_HEAT; lia | lia | vm_compute; discriminate].
Qed.

Lemma C4_duty_ramp_witness :
  pwmVal_of NOSLEEP (diff_of NOSLEEP 300 250) <=
  pwmVal_of NOSLEEP (diff_of NOSLEEP 300 251)
  /\ pwmVal_of NOSLEEP (diff_of NOSLEEP 300 200) = 50
  /\ pwmVal_of DEEPSLEEP (diff_of DEEPSLEEP 300 200) = 100.
Proof.
  destruct (C4_duty_ramp NOSLEEP 300 250 251) as (_ & _ & _ & _ & M);
    [lia | lia | lia |].
  destruct (C4_duty_ramp NOSLEEP 300 200 200) as (_ & _ & V & _);
    [lia | lia | lia |].
  destruct (C4_duty_ramp DEEPSLEEP 300 200 200) as (_ & D & _);
    [lia | lia | lia |].
  split; [|split].
  - apply M. vm_compute; discriminate.
  - apply (proj1 (V ltac:(discriminate))). vm_compute; reflexivity.
  - apply (proj1 (D eq_refl)).
Defined.

Section ClaimsB.

Context {symbols : S7C_symbols}.

(** ** Setpoint bounds *)

(** C5. After every pass of [mainLoop] that finds no fault, the setpoint
    is within [MIN_HEAT, MAX_HEAT] = [50, 450], whatever the state the
    pass started from and whatever the buttons did in it. *)
Theorem C5_heatPoint_clamped (hw : input) (s : state) :
  error_of (adcVal_of hw s) = 0 ->
  MIN_HEAT <= heatPoint (_eepromData (final (mainLoop hw s))) <= MAX_HEAT.
Proof.
  intros H.
  change (_eepromData (final (mainLoop hw s)))
    with (ed_eepromData (editor_of (final (mainLoop hw s)))).
  rewrite editor_mainLoop_ok by assumption.
  unfold pass_step, edit_step. rewrite save_step_eeprom.
  apply heatPoint_validity_step.
Qed.

(** ** Sleep state *)

(** C6, as amended.  After a toggle of the presence pin seen at [t0] and
    no toggle since, [checkSleep] at [t >= t0] leaves the state alone and
    reports, by strict comparisons of [t - t0] with the timeouts:
    NOSLEEP up to and including [t0 + sleepTimeout], SLEEP after that up
    to and including [t0 + deepSleepTimeout], DEEPSLEEP after that. *)
Theorem C6_sleep_after_toggle (hw0 hw : input) (s : state) (t0 t : Z) :
  uint8 (getPin hw0 PB5) <> oldSensorState s ->
  getPin hw PB5 = getPin hw0 PB5 ->
  0 <= t0 <= t -> t < 4294967296 ->
  sleepTimeout (_eepromData s) <= deepSleepTimeout (_eepromData s) ->
  let s1 := final (checkSleep hw0 t0 s) in
  result (checkSleep hw0 t0 s) = NOSLEEP
  /\ final (checkSleep hw t s1) = s1
  /\ (t <= t0 + sleepTimeout (_eepromData s) ->
      result (checkSleep hw t s1) = NOSLEEP)
  /\ (t0 + sleepTimeout (_eepromData s) < t <= t0 + deepSleepTimeout (_eepromData s) ->
      result (checkSleep hw t s1) = SLEEP)
  /\ (t0 + deepSleepTimeout (_eepromData s) < t ->
      result (checkSleep hw t s1) = DEEPSLEEP).
Proof.
  intros Htoggle Hpin Ht Ht' Hto s1.
  unfold s1. rewrite checkSleep_toggle by assumption.
  cbn [result final fst snd].
  split; [reflexivity|].
  rewrite checkSleep_steady by (rewrite Hpin; reflexivity).
  cbn [result final fst snd set_oldSensorState set__sleepTimer _sleepTimer
       _eepromData].
  rewrite uint32_small by lia.
  split; [reflexivity|].
  destruct (Z.gtb_spec (t - t0) (deepSleepTimeout (_eepromData s)));
    destruct (Z.gtb_spec (t - t0) (sleepTimeout (_eepromData s)));
    repeat split; intros; try reflexivity; lia.
Qed.

(** ** The repeat counter *)


(** ** An edit at counter reading 0 *)

Lemma save_due_unset nowTime e :
  ed_haveToSaveData e = 0 -> save_due nowTime e = false.
Proof. intros H. unfold save_due. rewrite H. reflexivity. Qed.

(** A pass that starts with no save pending and does not edit at a
    non-zero counter reading writes nothing and leaves no save pending. *)
Lemma unarmed_pass hw s :
  _haveToSaveData s = 0 ->
  (error_of (adcVal_of hw s) =? 0) && setpoint_edited hw s
    && negb (nowTime_of hw =? 0) = false ->
  _haveToSaveData (final (mainLoop hw s)) = 0
  /\ writes (trace (mainLoop hw s)) = [].
Proof.
  intros H0 Hq.
  destruct (Z.eqb_spec (error_of (adcVal_of hw s)) 0) as [E|E].
  - cbn [andb] in Hq. rewrite setpoint_edited_spec in Hq.
    assert (ed_haveToSaveData
              (edit_step (getPin hw PB7) (getPin hw PB6) (nowTime_of hw)
                 (editor_of s)) = 0) as Z0.
    { rewrite edit_step_stamp.
      destruct (pass_edits _ _ _ _); [|exact H0].
      cbn [andb] in Hq. apply negb_false_iff, Z.eqb_eq in Hq. exact Hq. }
    split.
    + change (_haveToSaveData (final (mainLoop hw s)))
        with (ed_haveToSaveData (editor_of (final (mainLoop hw s)))).
      rewrite editor_mainLoop_ok by assumption.
      unfold pass_step, save_step. rewrite save_due_unset by exact Z0. exact Z0.
    + rewrite writes_mainLoop_editor by assumption.
      rewrite save_due_unset by exact Z0. reflexivity.
  - rewrite mainLoop_fault by assumption. split; [exact H0|reflexivity].
Qed.

Lemma unarmed_run hws : forall s,
  _haveToSaveData s = 0 -> rearmed hws s = false ->
  _haveToSaveData (final (mainLoops hws s)) = 0
  /\ writes (trace (mainLoops hws s)) = [].
Proof.
  induction hws as [|hw hws IH]; intros s H0 Hr; [split; [exact H0|reflexivity]|].
  cbn [rearmed] in Hr. apply orb_false_iff in Hr. destruct Hr as [Hq Hr].
  destruct (unarmed_pass hw s H0 Hq) as [Z0 W0].
  destruct (IH _ Z0 Hr) as [Z1 W1].
  rewrite final_mainLoops_cons, trace_mainLoops_cons, writes_app, W0, W1.
  split; [exact Z1|reflexivity].
Qed.

(** C10. When a pass without fault edits the setpoint while the
    millisecond counter reads 0, the pending-save stamp is 0 after the
    pass, the pass writes nothing to the EEPROM, and no later pass does,
    unless one of them edits the setpoint at a non-zero counter reading. *)
Theorem C10_edit_at_zero (hw : input) (s : state) :
  error_of (adcVal_of hw s) = 0 ->
  nowTime_of hw = 0 ->
  setpoint_edited hw s = true ->
  _haveToSaveData (final (mainLoop hw s)) = 0
  /\ writes (trace (mainLoop hw s)) = []
  /\ forall hws : list input,
       rearmed hws (final (mainLoop hw s)) = false ->
       writes (trace (mainLoops hws (final (mainLoop hw s)))) = [].
Proof.
  intros E Hnow Hedit.
  assert (ed_haveToSaveData
            (edit_step (getPin hw PB7) (getPin hw PB6) (nowTime_of hw)
               (editor_of s)) = 0) as Z0.
  { rewrite edit_step_stamp, <- setpoint_edited_spec, Hedit. exact Hnow. }
  assert (_haveToSaveData (final (mainLoop hw s)) = 0) as Z1.
  { change (_haveToSaveData (final (mainLoop hw s)))
      with (ed_haveToSaveData (editor_of (final (mainLoop hw s)))).
    rewrite editor_mainLoop_ok by assumption.
    unfold pass_step, save_step. rewrite save_due_unset by exact Z0. exact Z0. }
  split; [exact Z1|]. split.
  - rewrite writes_mainLoop_editor by assumption.
    rewrite save_due_unset by exact Z0. reflexivity.
  - intros hws Hr. apply (unarmed_run hws _ Z1 Hr).
Qed.

End ClaimsB.

Lemma C5_heatPoint_clamped_witness :
  error_of (adcVal_of (sample 0 100 HIGH HIGH LOW) (held_since 4294966595)) = 0
  /\ MIN_HEAT <=
     heatPoint (_eepromData (final (mainLoop (sample 0 100 HIGH HIGH LOW)
                                      (held_since 4294966595)))) <= MAX_HEAT.
Proof.
  assert (error_of (adcVal_of (sample 0 100 HIGH HIGH LOW)
                      (held_since 4294966595)) = 0) as H by reflexivity.
  split; [exact H|].
  exact (C5_heatPoint_clamped (sample 0 100 HIGH HIGH LOW)
           (held_since 4294966595) H).
Defined.

(** C6, as the claim has it, fails at the boundary: with the timeouts of a
    first launch (180000 and 600000 ms) and a toggle at 1000, the state
    reported at 181000 = 1000 + sleepTimeout is NOSLEEP, not SLEEP. *)
Lemma C6_counterexample :
  ~ (forall (hw0 hw : input) (s : state) (t0 t : Z),
       uint8 (getPin hw0 PB5) <> oldSensorState s ->
       getPin hw PB5 = getPin hw0 PB5 ->
       0 <= t0 <= t -> t < 4294967296 ->
       sleepTimeout (_eepromData s) < deepSleepTimeout (_eepromData s) ->
       t0 + sleepTimeout (_eepromData s) <= t < t0 + deepSleepTimeout (_eepromData s) ->
       result (checkSleep hw t (final (checkSleep hw0 t0 s))) = SLEEP).
Proof.
  intros H.
  specialize (H (sample 1000 100 HIGH HIGH HIGH) (sample 181000 100 HIGH HIGH HIGH)
                power_on 1000 181000).
  assert (result (checkSleep (sample 181000 100 HIGH HIGH HIGH) 181000
                    (final (checkSleep (sample 1000 100 HIGH HIGH HIGH) 1000
                              power_on))) = NOSLEEP) as E by reflexivity.
  rewrite E in H.
  assert (NOSLEEP = SLEEP) as F; [|discriminate F].
  apply H; try reflexivity; try (vm_compute; discriminate);
    try (cbn; lia); try (split; vm_compute; discriminate).
Qed.

Lemma C6_sleep_after_toggle_witness :
  result (checkSleep (sample 181000 100 HIGH HIGH HIGH) 181000
            (final (checkSleep (sample 1000 100 HIGH HIGH HIGH) 1000 power_on)))
    = NOSLEEP
  /\ result (checkSleep (sample 181001 100 HIGH HIGH HIGH) 181001
               (final (checkSleep (sample 1000 100 HIGH HIGH HIGH) 1000 power_on)))
       = SLEEP
  /\ result (checkSleep (sample 601000 100 HIGH HIGH HIGH) 601000
               (final (checkSleep (sample 1000 100 HIGH HIGH HIGH) 1000 power_on)))
       = SLEEP
  /\ result (checkSleep (sample 601001 100 HIGH HIGH HIGH) 601001
               (final (checkSleep (sample 1000 100 HIGH HIGH HIGH) 1000 power_on)))
       = DEEPSLEEP.
Proof.
  assert (uint8 (getPin (sample 1000 100 HIGH HIGH HIGH) PB5)
          <> oldSensorState power_on) as Ht by (vm_compute; discriminate).
  assert (sleepTimeout (_eepromData power_on)
          <= deepSleepTimeout (_eepromData power_on)) as Hto
    by (vm_compute; discriminate).
  split; [|split; [|split]].
  - apply (C6_sleep_after_toggle (sample 1000 100 HIGH HIGH HIGH)
             (sample 181000 100 HIGH HIGH HIGH) power_on 1000 181000 Ht);
      [reflexivity | lia | lia | exact Hto | vm_compute; discriminate].
  - apply (C6_sleep_after_toggle (sample 1000 100 HIGH HIGH HIGH)
             (sample 181001 100 HIGH HIGH HIGH) power_on 1000 181001 Ht);
      [reflexivity | lia | lia | exact Hto | split; vm_compute; [reflexivity | discriminate]].
  - apply (C6_sleep_after_toggle (sample 1000 100 HIGH HIGH HIGH)
             (sample 601000 100 HIGH HIGH HIGH) power_on 1000 601000 Ht);
      [reflexivity | lia | lia | exact Hto | split; vm_compute; [reflexivity | discriminate]].
  - apply (C6_sleep_after_toggle (sample 1000 100 HIGH HIGH HIGH)
             (sample 601001 100 HIGH HIGH HIGH) power_on 1000 601001 Ht);
      [reflexivity | lia | lia | exact Hto | vm_compute; reflexivity].
Defined.

Section ClaimsC.

Context {symbols : S7C_symbols}.

(** ** Persistence *)

(** C8, as amended.  When the pending-save stamp is set (non-zero) and
    more than [EEPROM_SAVE_TIMEOUT] = 2000 ms have passed since it,
    [checkPendingDataSave] shows SYM_SAVE, writes the whole record once
    and clears the stamp.  Hence, in a run without fault that starts with
    nothing pending and whose counter never goes back: if the setpoint is
    edited at least once, every edit at a non-zero counter reading and
    less than 2000 ms after the one before, and the last pass comes more
    than 2000 ms after the last edit, the run writes the EEPROM exactly
    once, and the record written is the final one. *)
Theorem C8_save_coalescing :
  (forall (nowTime : Z) (s : state),
     _haveToSaveData s <> 0 ->
     uint32 (nowTime - _haveToSaveData s) > EEPROM_SAVE_TIMEOUT ->
     checkPendingDataSave nowTime s =
     (tt, set__haveToSaveData 0 s,
      [S7C_setSymbol 3 SYM_SAVE;
       eeprom_write EEPROM_START_ADDR (_eepromData s)]))
  /\ (forall (hws : list input) (s : state),
        faultless hws s = true ->
        _haveToSaveData s = 0 ->
        ascending 0 (map nowTime_of hws) = true ->
        edits_spaced 0 hws s = true ->
        last_edit 0 hws s <> 0 ->
        EEPROM_SAVE_TIMEOUT < last_time 0 hws - last_edit 0 hws s ->
        writes (trace (mainLoops hws s)) = [_eepromData (final (mainLoops hws s))]
        /\ _haveToSaveData (final (mainLoops hws s)) = 0).
Proof.
  split.
  - intros nowTime s Hset Hlate.
    apply checkPendingDataSave_due. unfold save_due.
    cbn [editor_of ed_haveToSaveData].
    apply andb_true_iff. split.
    + apply negb_true_iff, Z.eqb_neq, Hset.
    + apply Z.gtb_gt, Hlate.
  - intros hws s Hf H0 Ha Hs HL Hq.
    destruct (idle_run hws s 0 Hf H0 (Z.le_refl 0) Ha Hs) as (_ & W & _).
    exact (W HL Hq).
Qed.

End ClaimsC.

(** C8 as the claim has it fails in two ways.  With exactly 2000 ms of
    inactivity nothing is written: an edit at 1701 (button down from 1000)
    and a last pass at 3701 leave the EEPROM alone.  And an edit made while
    the counter reads 0 (button down 701 ms before the counter wraps) is
    never written, however long the inactivity. *)
Lemma C8_counterexample :
  (let hws := [sample 1000 100 HIGH HIGH LOW; sample 1701 100 HIGH HIGH LOW;
               sample 1702 100 HIGH HIGH HIGH; sample 3701 100 HIGH HIGH HIGH] in
   let s := set_oldADCVal 100 power_on in
   last_edit 0 hws s = 1701
   /\ last_time 0 hws - last_edit 0 hws s = 2000
   /\ heatPoint (_eepromData (final (mainLoops hws s))) = 271
   /\ writes (trace (mainLoops hws s)) = [])
  /\
  (let hws := [sample 0 100 HIGH HIGH LOW; sample 1 100 HIGH HIGH HIGH;
               sample 2001 100 HIGH HIGH HIGH; sample 5000 100 HIGH HIGH HIGH] in
   let s := held_since 4294966595 in
   setpoint_edited (sample 0 100 HIGH HIGH LOW) s = true
   /\ heatPoint (_eepromData (final (mainLoops hws s))) = 271
   /\ writes (trace (mainLoops hws s)) = []).
Proof. vm_compute. repeat split. Qed.

Lemma C8_save_coalescing_witness :
  let hws := [sample 1000 100 HIGH HIGH LOW; sample 1701 100 HIGH HIGH LOW;
              sample 1702 100 HIGH HIGH LOW; sample 2403 100 HIGH HIGH LOW;
              sample 2404 100 HIGH HIGH HIGH; sample 4404 100 HIGH HIGH HIGH] in
  let s := set_oldADCVal 100 power_on in
  checkPendingDataSave 4404 (set__haveToSaveData 2403 s) =
    (tt, s, [S7C_setSymbol 3 SYM_SAVE; eeprom_write EEPROM_START_ADDR (_eepromData s)])
  /\ writes (trace (mainLoops hws s)) =
       [{| heatPoint := 272; sleepTimeout := 180000; deepSleepTimeout := 600000 |}].
Proof.
  cbv zeta. split.
  - apply (proj1 C8_save_coalescing 4404
             (set__haveToSaveData 2403 (set_oldADCVal 100 power_on)));
      vm_compute; [discriminate | reflexivity].
  - apply (proj2 C8_save_coalescing
             [sample 1000 100 HIGH HIGH LOW; sample 1701 100 HIGH HIGH LOW;
              sample 1702 100 HIGH HIGH LOW; sample 2403 100 HIGH HIGH LOW;
              sample 2404 100 HIGH HIGH HIGH; sample 4404 100 HIGH HIGH HIGH]
             (set_oldADCVal 100 power_on));
      vm_compute; try reflexivity; discriminate.
Defined.



Lemma C10_edit_at_zero_witness :
  let hw := sample 0 100 HIGH HIGH LOW in
  let s := held_since 4294966595 in
  heatPoint (_eepromData (final (mainLoop hw s))) = 271
  /\ _haveToSaveData (final (mainLoop hw s)) = 0
  /\ writes (trace (mainLoop hw s)) = []
  /\ writes (trace (mainLoops [sample 1 100 HIGH HIGH HIGH; sample 2001 100 HIGH HIGH HIGH;
                               sample 9000 100 HIGH HIGH HIGH]
                      (final (mainLoop hw s)))) = [].
Proof.
  cbv zeta.
  destruct (C10_edit_at_zero (sample 0 100 HIGH HIGH LOW) (held_since 4294966595))
    as (A & B & C); try reflexivity.
  split; [reflexivity|]. split; [exact A|]. split; [exact B|].
  apply C. reflexivity.
Defined.

Section ClaimsD.

Context {symbols : S7C_symbols}.

Lemma faultless_app hws1 hws2 : forall s,
  faultless (hws1 ++ hws2) s =
  faultless hws1 s && faultless hws2 (final (mainLoops hws1 s)).
Proof.
  induction hws1 as [|hw hws1 IH]; intros s; [reflexivity|].
  cbn [app faultless]. rewrite IH, final_mainLoops_cons, andb_assoc. reflexivity.
Qed.

(** ** Short press *)

(** C7, as amended.  Start with both press timers idle and the setpoint
    (and the setpoint after one step) inside [50, 450].  Hold one button,
    the other one up, over passes without fault from counter reading
    [t0 > 0] on, the counter never going back, the last pass of the hold
    more than [SHORT_PRESS] = 700 ms and at most [2 * 700 + 1] = 1401 ms
    after the first; then release.  The setpoint has changed by exactly
    one increment of that button, [beep] was called exactly once, the
    pending-save stamp was set during the hold (after [t0 + 700]), and
    both press timers are idle again. *)
Theorem C7_short_press_once (button : pin) (hw0 : input) (hold : list input)
    (hwr : input) (s : state) :
  faultless (hw0 :: hold ++ [hwr]) s = true ->
  _buttonTimer s = 0 -> _longPressTimer s = 0 ->
  forallb (only_held button) (hw0 :: hold) = true ->
  both_released hwr = true ->
  0 < nowTime_of hw0 ->
  ascending (nowTime_of hw0) (map nowTime_of hold) = true ->
  nowTime_of hw0 + SHORT_PRESS < last_time (nowTime_of hw0) hold
    <= nowTime_of hw0 + (2 * SHORT_PRESS + 1) ->
  MIN_HEAT <= heatPoint (_eepromData s) <= MAX_HEAT ->
  MIN_HEAT <= heatPoint (_eepromData s) + increment_of button <= MAX_HEAT ->
  let held := mainLoops (hw0 :: hold) s in
  let r := mainLoops (hw0 :: hold ++ [hwr]) s in
  heatPoint (_eepromData (final r)) =
    heatPoint (_eepromData s) + increment_of button
  /\ beeps (trace r) = 1%nat
  /\ nowTime_of hw0 + SHORT_PRESS < _haveToSaveData (final held)
       <= last_time (nowTime_of hw0) hold
  /\ _buttonTimer (final r) = 0
  /\ _longPressTimer (final r) = 0.
Proof.
  intros Hf Hb Hl Hh Hrel Ht0 Ha Hlast R R' held r.
  change (hw0 :: hold ++ [hwr]) with ((hw0 :: hold) ++ [hwr]) in *.
  rewrite faultless_app in Hf. apply andb_true_iff in Hf. destruct Hf as [Hf Hfr].
  cbn [faultless] in Hf, Hfr.
  apply andb_true_iff in Hf. destruct Hf as [E0 Hf]. apply Z.eqb_eq in E0.
  rewrite andb_true_r in Hfr. apply Z.eqb_eq in Hfr.
  cbn [forallb] in Hh. apply andb_true_iff in Hh. destruct Hh as [Hh0 Hh].
  pose proof (nowTime_of_range hw0) as Hr0.
  (* the first pass arms the timers *)
  destruct (held_pass button hw0 s E0 Hh0) as [Ed0 Bp0].
  destruct (idle_pass_arm (increment_of button) (nowTime_of hw0)
              (_eepromData s) (editor_of s) Hb Hl eq_refl ltac:(lia) R)
    as [A B0].
  rewrite <- Ed0 in A. rewrite B0 in Bp0.
  (* the rest of the hold *)
  destruct (armed_run button (nowTime_of hw0) (_eepromData s) hold
              (final (mainLoop hw0 s)) (nowTime_of hw0) Hf Hh Ha
              ltac:(lia) ltac:(unfold SHORT_PRESS; lia) Hlast R R' A)
    as [[tf F] Bh].
  destruct F as (Fl & Fb & Fs & Ft & Fd).
  cbn [editor_of ed_longPressTimer ed_buttonTimer ed_haveToSaveData
       ed_eepromData] in Fl, Fb, Fs, Fd.
  rewrite <- final_mainLoops_cons in Fl, Fb, Fs, Fd.
  fold held in Fl, Fb, Fs, Fd, Hfr.
  (* the release *)
  destruct (released_pass hwr (final held) Hfr Hrel) as (Q1 & Q2 & Q3 & Q4).
  { rewrite Fd. cbn [set_heatPoint heatPoint]. exact R'. }
  unfold r. rewrite final_mainLoops_app, trace_mainLoops_app. fold held.
  cbn [mainLoops]. rewrite final_bind, trace_bind. cbn [ret final trace fst snd].
  rewrite app_nil_r, beeps_app, Q1, Q2, Q3, Q4, Fd, Fs.
  unfold held at 1. rewrite trace_mainLoops_cons, beeps_app, Bp0, Bh.
  cbn [set_heatPoint heatPoint]. repeat split; lia.
Qed.

End ClaimsD.

(** C7 as the claim has it fails for the longer holds it covers: PB7 held
    for 1500 ms (passes 1 ms apart from 1000 to 2500, then a release)
    takes the short-press branch twice, at 1701 and again at 2403: the
    setpoint goes from 270 to 272 and [beep] is called twice. *)
Lemma C7_counterexample :
  let hws := press_plus 1000 1500 ++ [sample 2501 100 HIGH HIGH HIGH] in
  let s := set_oldADCVal 100 power_on in
  SHORT_PRESS < 1500 < LONG_PRESS
  /\ faultless hws s = true
  /\ forallb (only_held PB7) (press_plus 1000 1500) = true
  /\ heatPoint (_eepromData s) = 270
  /\ heatPoint (_eepromData (final (mainLoops hws s))) = 272
  /\ beeps (trace (mainLoops hws s)) = 2%nat.
Proof. vm_compute. repeat split. Qed.

Lemma C7_short_press_once_witness :
  let s := set_oldADCVal 100 power_on in
  let r := mainLoops (press_plus 1000 800 ++ [sample 1801 100 HIGH HIGH HIGH]) s in
  heatPoint (_eepromData (final r)) = 271
  /\ beeps (trace r) = 1%nat.
Proof.
  cbv zeta.
  assert (faultless (sample 1000 100 HIGH HIGH LOW
                     :: tl (press_plus 1000 800) ++ [sample 1801 100 HIGH HIGH HIGH])
            (set_oldADCVal 100 power_on) = true) as H1
    by (vm_compute; reflexivity).
  assert (forallb (only_held PB7)
            (sample 1000 100 HIGH HIGH LOW :: tl (press_plus 1000 800)) = true) as H4
    by (vm_compute; reflexivity).
  assert (ascending (nowTime_of (sample 1000 100 HIGH HIGH LOW))
            (map nowTime_of (tl (press_plus 1000 800))) = true) as H7
    by (vm_compute; reflexivity).
  assert (nowTime_of (sample 1000 100 HIGH HIGH LOW) + SHORT_PRESS
          < last_time (nowTime_of (sample 1000 100 HIGH HIGH LOW))
              (tl (press_plus 1000 800))
          <= nowTime_of (sample 1000 100 HIGH HIGH LOW) + (2 * SHORT_PRESS + 1)) as H8
    by (vm_compute; split; [reflexivity | discriminate]).
  assert (MIN_HEAT <= heatPoint (_eepromData (set_oldADCVal 100 power_on))
          <= MAX_HEAT) as H9
    by (vm_compute; split; discriminate).
  assert (MIN_HEAT <= heatPoint (_eepromData (set_oldADCVal 100 power_on))
                      + increment_of PB7 <= MAX_HEAT) as H10
    by (vm_compute; split; discriminate).
  pose proof (C7_short_press_once PB7 (sample 1000 100 HIGH HIGH LOW)
                (tl (press_plus 1000 800)) (sample 1801 100 HIGH HIGH HIGH)
                (set_oldADCVal 100 power_on) H1 eq_refl eq_refl H4 eq_refl
                eq_refl H7 H8 H9 H10) as W.
  vm_compute in W. vm_compute.
  exact (conj (proj1 W) (proj1 (proj2 W))).
Defined.

(** * Further properties of the code *)

(** ** Sensor filter and temperature scale *)

(** X1. As long as [old * 3 + raw] fits 16 bits (it does for 10-bit ADC
    samples), the noise filter is [(3 * old + raw) / 4] rounded down; its
    output lies between the old value and the sample, and it does not move
    when the sample is 0 to 3 above the old value: rounding down makes a
    rising reading stall up to 3 counts short of a steady sample. *)
Theorem noise_filter_between (old raw : Z) :
  0 <= old -> 0 <= raw -> 3 * old + raw < 65536 ->
  noise_filter old raw = (3 * old + raw) / 4
  /\ Z.min old raw <= noise_filter old raw <= Z.max old raw
  /\ (old <= raw <= old + 3 -> noise_filter old raw = old)
  /\ (raw < old -> noise_filter old raw < old).
Proof.
  intros Ho Hr Hfit.
  assert (noise_filter old raw = (3 * old + raw) / 4) as E.
  { unfold noise_filter. rewrite Z.shiftr_div_pow2 by lia.
    change (2 ^ 2) with 4.
    rewrite (uint16_small (old * 3)) by lia.
    rewrite uint16_small by lia. f_equal. lia. }
  rewrite E.
  pose proof (Z.div_mod (3 * old + raw) 4 ltac:(lia)) as D.
  pose proof (Z.mod_pos_bound (3 * old + raw) 4 ltac:(lia)) as B.
  repeat split; intros; lia.
Qed.

Lemma noise_filter_between_witness :
  noise_filter 9 12 = 9 /\ noise_filter 100 50 < 100.
Proof.
  split.
  - apply (noise_filter_between 9 12); lia.
  - apply (noise_filter_between 100 50); lia.
Defined.

Lemma displayVal_of_exact (adcVal : Z) :
  40 <= adcVal <= 203 ->
  displayVal_of adcVal = 400 * (adcVal - 40) / 90.
Proof.
  intros H. unfold displayVal_of, MAX_HEAT, MIN_HEAT, MAX_ADC_RT, MIN_ADC_RT.
  change (450 - 50) with 400. change (130 - 40) with 90.
  rewrite (uint16_small (adcVal - 40)) by lia.
  rewrite (uint16_small (400 * (adcVal - 40))) by lia.
  apply uint16_small.
  split; [apply Z.div_pos; lia | apply Z.div_lt_upper_bound; lia].
Qed.

(** X2. For filtered readings from MIN_ADC_RT = 40 to 203 the display
    value is the scale of the source, [400 * (adc - 40) / 90], without
    wrap-around, hence monotone in the reading; 203 is the last such
    reading: at 204 the 16-bit product wraps and the value drops from 724
    to 0. *)
Theorem displayVal_of_scale (adc adc' : Z) :
  40 <= adc <= adc' -> adc' <= 203 ->
  displayVal_of adc =
    (MAX_HEAT - MIN_HEAT) * (adc - MIN_ADC_RT) / (MAX_ADC_RT - MIN_ADC_RT)
  /\ displayVal_of adc <= displayVal_of adc'
  /\ displayVal_of 203 = 724
  /\ displayVal_of 204 = 0.
Proof.
  intros H H'.
  rewrite !displayVal_of_exact by lia.
  unfold MAX_HEAT, MIN_HEAT, MAX_ADC_RT, MIN_ADC_RT.
  repeat split; try reflexivity.
  apply Z.div_le_mono; lia.
Qed.

Lemma displayVal_of_scale_witness :
  displayVal_of 130 = 400 /\ displayVal_of 130 <= displayVal_of 141.
Proof.
  destruct (displayVal_of_scale 130 141) as (A & B & _); [lia | lia |].
  split; [exact A | exact B].
Defined.

(** A reading below MIN_ADC_RT wraps the unsigned subtraction. *)
Lemma displayVal_of_cold (adcVal : Z) :
  0 <= adcVal < 40 -> displayVal_of adcVal = (400 * adcVal + 49536) / 90.
Proof.
  intros H. unfold displayVal_of, MAX_HEAT, MIN_HEAT, MAX_ADC_RT, MIN_ADC_RT.
  change (450 - 50) with 400. change (130 - 40) with 90.
  assert (uint16 (adcVal - 40) = adcVal + 65496) as E1.
  { unfold uint16.
    replace (adcVal - 40) with (adcVal + 65496 + (-1) * 65536) by lia.
    rewrite Z_mod_plus_full. apply Z.mod_small. lia. }
  rewrite E1.
  assert (uint16 (400 * (adcVal + 65496)) = 400 * adcVal + 49536) as E2.
  { unfold uint16.
    replace (400 * (adcVal + 65496)) with (400 * adcVal + 49536 + 399 * 65536)
      by lia.
    rewrite Z_mod_plus_full. apply Z.mod_small. lia. }
  rewrite E2. apply uint16_small.
  split; [apply Z.div_pos; lia | apply Z.div_lt_upper_bound; lia].
Qed.

Section ExtrasA.

Context {symbols : S7C_symbols}.

(** X3. A filtered reading below MIN_ADC_RT = 40 (and not a fault, so
    from 10 on) never drives the heater: the unsigned [adcVal - 40] wraps,
    the display value comes out between 594 and 723, above any setpoint up
    to 450 and above SLEEP_TEMP, so [diff < 0] and the pass sets the duty
    to 100 (heater off) in every sleep state. *)
Theorem cold_reading_heater_off (hw : input) (s : state) :
  10 <= adcVal_of hw s < 40 ->
  0 <= heatPoint (_eepromData s) <= MAX_HEAT ->
  594 <= displayVal_of (adcVal_of hw s) <= 723
  /\ duties (trace (mainLoop hw s)) = [100].
Proof.
  intros Hadc Hhp.
  assert (594 <= displayVal_of (adcVal_of hw s) <= 723) as Hd.
  { rewrite displayVal_of_cold by lia.
    split; [apply Z.div_le_lower_bound; lia|].
    apply Z.lt_succ_r, Z.div_lt_upper_bound; lia. }
  split; [exact Hd|].
  rewrite duties_mainLoop_ok by (apply error_of_in_range; lia).
  f_equal. unfold pwmVal_in.
  pose proof (f_equal ed_eepromData (editor_after_sleep hw s)) as Ee.
  cbn [editor_of ed_eepromData] in Ee. rewrite Ee.
  set (d := displayVal_of (adcVal_of hw s)) in *.
  unfold MAX_HEAT in Hhp.
  assert (diff_of (sleep_of hw s) (heatPoint (_eepromData s)) d < 0) as Hneg.
  { unfold diff_of, SLEEP_TEMP.
    destruct (SleepState_eqb (sleep_of hw s) SLEEP);
      rewrite int16_uint16_sub by lia; lia. }
  unfold pwmVal_of. apply Z.ltb_lt in Hneg. rewrite Hneg, orb_true_r.
  reflexivity.
Qed.

End ExtrasA.

Lemma cold_reading_heater_off_witness :
  duties (trace (mainLoop (sample 1 20 HIGH HIGH HIGH)
                   (set_oldADCVal 20 power_on))) = [100].
Proof.
  apply (cold_reading_heater_off (sample 1 20 HIGH HIGH HIGH)
           (set_oldADCVal 20 power_on));
    vm_compute; split; first [discriminate | reflexivity].
Defined.

(** ** Start-up *)

(** X4. [setup] writes the EEPROM exactly when the stored setpoint is 0
    (first launch), and then with the defaults 270 / 180000 / 600000, which
    become the configuration; a record with a non-zero setpoint is taken
    as it is, without a write and without a range check.  Either way the
    setpoint is non-zero after [setup], the duty is set to 50 once, the
    alarm sounds once, the sleep timer starts at the counter reading and
    the setpoint display window is open for HEATPOINT_DISPLAY_DELAY. *)
Theorem setup_configuration (millis : Z) (stored : EEPROM_DATA) (s : state) :
  let fresh := {| heatPoint := 270; sleepTimeout := 180000;
                  deepSleepTimeout := 600000 |} in
  let r := setup millis stored s in
  (heatPoint stored = 0 ->
   _eepromData (final r) = fresh /\ writes (trace r) = [fresh])
  /\ (heatPoint stored <> 0 ->
      _eepromData (final r) = stored /\ writes (trace r) = [])
  /\ heatPoint (_eepromData (final r)) <> 0
  /\ duties (trace r) = [50]
  /\ alarms (trace r) = 1%nat
  /\ _sleepTimer (final r) = uint32 millis
  /\ _heatPointDisplayTime (final r) =
       uint32 (uint32 millis + HEATPOINT_DISPLAY_DELAY).
Proof.
  intros fresh r. unfold r, setup.
  lazy beta iota zeta delta [bind get modify emit ret when final result trace
                             fst snd].
  destruct (Z.eqb_spec (heatPoint stored) 0) as [E|E];
    cbn [app duties writes alarms _eepromData set__eepromData
         set__heatPointDisplayTime set__sleepTimer _sleepTimer
         _heatPointDisplayTime heatPoint];
    repeat split; intros; try reflexivity; try congruence; try discriminate.
Qed.

Lemma setup_configuration_witness :
  _eepromData power_on =
    {| heatPoint := 270; sleepTimeout := 180000; deepSleepTimeout := 600000 |}
  /\ writes (trace (setup 0 {| heatPoint := 300; sleepTimeout := 60000;
                               deepSleepTimeout := 120000 |} reset_state)) = [].
Proof.
  split.
  - apply (proj1 (setup_configuration 0
                    {| heatPoint := 0; sleepTimeout := 0; deepSleepTimeout := 0 |}
                    reset_state)).
    reflexivity.
  - apply (proj1 (proj2 (setup_configuration 0
                           {| heatPoint := 300; sleepTimeout := 60000;
                              deepSleepTimeout := 120000 |} reset_state))).
    discriminate.
Defined.

Section ExtrasB.

Context {symbols : S7C_symbols}.

(** ** Faults *)

Lemma noise_filter_bounds_small (old raw : Z) :
  0 <= old <= 9 -> 0 <= raw <= 12 -> 0 <= noise_filter old raw <= 9.
Proof.
  intros Ho Hr. unfold noise_filter. rewrite Z.shiftr_div_pow2 by lia.
  change (2 ^ 2) with 4.
  rewrite (uint16_small (old * 3)) by lia.
  rewrite uint16_small by lia.
  split; [apply Z.div_pos; lia|].
  apply Z.lt_succ_r, Z.div_lt_upper_bound; lia.
Qed.

Lemma fault_stays (old raw : Z) :
  0 <= old <= 9 -> 0 <= raw <= 12 ->
  0 <= noise_filter old raw <= 9 /\ error_of (noise_filter old raw) = 1.
Proof.
  intros Ho Hr.
  destruct (noise_filter_bounds_small old raw Ho Hr) as [L U].
  split; [lia|]. unfold error_of.
  destruct (Z.ltb_spec (noise_filter old raw) 10); [reflexivity|lia].
Qed.

(** X5. A short-circuit fault does not clear while the raw samples are at
    most 12, although 10 to 12 are no-fault readings: from a filter memory
    of at most 9 the filtered reading stays at most 9
    ([(3 * 9 + 12) >> 2 = 9]), so every pass of such a run takes the fault
    path: duty 100 each time, and the editor's state (timers, stamp,
    configuration, repeat counter) is left as it was. *)
Theorem short_fault_persists (hws : list input) (s : state) :
  0 <= oldADCVal s <= 9 ->
  forallb (fun hw => uint16 (ADC_read hw ADC1_CSR_CH0) <=? 12) hws = true ->
  all_faults hws s = true
  /\ duties (trace (mainLoops hws s)) = List.repeat 100 (List.length hws)
  /\ editor_of (final (mainLoops hws s)) = editor_of s.
Proof.
  revert s. induction hws as [|hw hws IH]; intros s Ho Hr.
  - repeat split.
  - cbn [forallb] in Hr. apply andb_true_iff in Hr. destruct Hr as [Hr1 Hr].
    apply Z.leb_le in Hr1.
    pose proof (uint16_range (ADC_read hw ADC1_CSR_CH0)) as Hr0.
    destruct (fault_stays (oldADCVal s) (uint16 (ADC_read hw ADC1_CSR_CH0)) Ho
                ltac:(lia)) as [Hn He].
    fold (adcVal_of hw s) in Hn, He.
    assert (error_of (adcVal_of hw s) <> 0) as Hf by (rewrite He; discriminate).
    assert (oldADCVal (final (mainLoop hw s)) = adcVal_of hw s) as Hold
      by (rewrite mainLoop_fault by assumption; reflexivity).
    destruct (IH (final (mainLoop hw s)) ltac:(rewrite Hold; exact Hn) Hr)
      as (I1 & I2 & I3).
    cbn [all_faults List.length List.repeat].
    rewrite final_mainLoops_cons, trace_mainLoops_cons, duties_app, I1, I2, I3.
    rewrite He. rewrite editor_mainLoop_fault by assumption.
    rewrite mainLoop_fault by assumption.
    repeat split.
Qed.

(** ** Deep sleep *)

(** X6. When the presence pin has not changed and more than
    [deepSleepTimeout] has passed since the sleep timer, a pass without
    fault reports DEEPSLEEP, sets the duty to 100 (heater off) whatever
    the reading and the setpoint, sets no digit and blanks the three digit
    positions before it sets the status symbol. *)
Theorem deep_sleep_pass (hw : input) (s : state) :
  error_of (adcVal_of hw s) = 0 ->
  uint8 (getPin hw PB5) = oldSensorState s ->
  uint32 (nowTime_of hw - _sleepTimer s) > deepSleepTimeout (_eepromData s) ->
  sleep_of hw s = DEEPSLEEP
  /\ duties (trace (mainLoop hw s)) = [100]
  /\ digits (trace (mainLoop hw s)) = []
  /\ exists saving,
       symbols_set (trace (mainLoop hw s)) =
       (0, 0) :: (1, 0) :: (2, 0) :: (3, displaySymbol_of hw s) :: saving.
Proof.
  intros E Hpin Hlate.
  assert (sleep_of hw s = DEEPSLEEP) as Hs.
  { unfold sleep_of. rewrite checkSleep_steady by exact Hpin.
    cbn [result fst after_sensors set_oldADCVal set_oldADCUI _sleepTimer
         _eepromData].
    apply Z.gtb_gt in Hlate. rewrite Hlate. reflexivity. }
  split; [exact Hs|].
  destruct (mainLoop_ok_display hw s E) as (D & _ & saving & Sy & _).
  rewrite Hs in D, Sy. cbn [SleepState_eqb app] in D, Sy.
  split; [|split; [exact D | exists saving; exact Sy]].
  rewrite duties_mainLoop_ok by assumption.
  unfold pwmVal_in, pwmVal_of. rewrite Hs. reflexivity.
Qed.

End ExtrasB.

Lemma short_fault_persists_witness :
  duties (trace (mainLoops [sample 1 12 HIGH HIGH HIGH; sample 2 12 HIGH HIGH HIGH;
                            sample 3 12 HIGH HIGH HIGH] power_on))
  = [100; 100; 100].
Proof.
  apply (short_fault_persists
           [sample 1 12 HIGH HIGH HIGH; sample 2 12 HIGH HIGH HIGH;
            sample 3 12 HIGH HIGH HIGH] power_on);
    vm_compute; first [reflexivity | split; discriminate].
Defined.

Lemma deep_sleep_pass_witness :
  duties (trace (mainLoop (sample 700000 100 0 HIGH HIGH)
                   (set_oldADCVal 100 power_on))) = [100]
  /\ digits (trace (mainLoop (sample 700000 100 0 HIGH HIGH)
                      (set_oldADCVal 100 power_on))) = [].
Proof.
  destruct (deep_sleep_pass (sample 700000 100 0 HIGH HIGH)
              (set_oldADCVal 100 power_on)) as (_ & A & B & _);
    try reflexivity.
  split; [exact A | exact B].
Defined.

(** ** Display *)

Lemma decimal_digits (v : Z) :
  0 <= v <= 999 ->
  0 <= v / 100 <= 9 /\ 0 <= (v mod 100) / 10 <= 9 /\ 0 <= v mod 10 <= 9
  /\ 100 * (v / 100) + 10 * ((v mod 100) / 10) + v mod 10 = v.
Proof.
  intros H.
  pose proof (Z.div_mod v 100 ltac:(lia)) as D1.
  pose proof (Z.mod_pos_bound v 100 ltac:(lia)) as B1.
  pose proof (Z.div_mod (v mod 100) 10 ltac:(lia)) as D2.
  pose proof (Z.mod_pos_bound (v mod 100) 10 ltac:(lia)) as B2.
  pose proof (Z.mod_pos_bound v 10 ltac:(lia)) as B3.
  assert ((v mod 100) mod 10 = v mod 10) as M.
  { apply (Z.mod_unique v 10 (10 * (v / 100) + (v mod 100) / 10)); lia. }
  rewrite M in D2.
  repeat split; try lia.
Qed.

Lemma SleepState_eqb_eq (a b : SleepState) : SleepState_eqb a b = true <-> a = b.
Proof. destruct a, b; cbn; split; intros H; congruence. Qed.

Section ExtrasC.

Context {symbols : S7C_symbols}.

Lemma heatPoint_after_validity hw s :
  MIN_HEAT <= heatPoint (_eepromData (after_validity hw s)) <= MAX_HEAT.
Proof.
  rewrite eeprom_after_validity. unfold edit_step.
  apply heatPoint_validity_step.
Qed.

Lemma eeprom_mainLoop_ok hw s :
  error_of (adcVal_of hw s) = 0 ->
  _eepromData (final (mainLoop hw s)) = _eepromData (after_validity hw s).
Proof.
  intros E. rewrite final_mainLoop_ok by assumption.
  unfold after_pass, pending_save. cbn [set_localCnt _eepromData].
  pose proof (f_equal ed_eepromData
                (editor_checkPendingDataSave (nowTime_of hw) (after_validity hw s)))
    as H.
  rewrite save_step_eeprom in H. exact H.
Qed.

Lemma shown_of_range hw s : 0 <= shown_of hw s <= 728.
Proof.
  unfold shown_of.
  pose proof (heatPoint_after_validity hw s) as H.
  pose proof (displayVal_of_range (adcVal_of hw s)) as D.
  unfold MIN_HEAT, MAX_HEAT in H.
  destruct (shows_heatPoint hw s); lia.
Qed.

(** X7. Every [S7C_setDigit] call of every pass, with or without fault,
    addresses position 0, 1 or 2 with a value from 0 to 9. *)
Theorem digits_are_decimal (hw : input) (s : state) :
  Forall (fun pv => 0 <= fst pv <= 2 /\ 0 <= snd pv <= 9)
    (digits (trace (mainLoop hw s))).
Proof.
  destruct (Z.eq_dec (error_of (adcVal_of hw s)) 0) as [E|E].
  - destruct (mainLoop_ok_display hw s E) as (D & _). rewrite D.
    destruct (SleepState_eqb (sleep_of hw s) DEEPSLEEP); [constructor|].
    pose proof (shown_of_range hw s) as R.
    destruct (decimal_digits (shown_of hw s) ltac:(lia)) as (A & B & C & _).
    repeat constructor; cbn [fst snd]; lia.
  - rewrite mainLoop_fault by assumption. cbn [trace snd digits].
    repeat constructor; cbn [fst snd]; try lia;
      unfold error_of in *;
      destruct (adcVal_of hw s <? 10); try lia;
      destruct (adcVal_of hw s >? 1000); lia.
Qed.

(** X8. In a pass without fault outside deep sleep the three digits are
    the decimal digits of one value: the setpoint left by the pass or the
    display value of the reading.  It is the setpoint whenever a button is
    down in the pass, and whenever the display value is within 10 of the
    setpoint. *)
Theorem shown_value (hw : input) (s : state) :
  error_of (adcVal_of hw s) = 0 ->
  sleep_of hw s <> DEEPSLEEP ->
  let v := shown_of hw s in
  let hp := heatPoint (_eepromData (final (mainLoop hw s))) in
  let d := displayVal_of (adcVal_of hw s) in
  digits (trace (mainLoop hw s)) =
    [(0, v / 100); (1, (v mod 100) / 10); (2, v mod 10)]
  /\ 100 * (v / 100) + 10 * ((v mod 100) / 10) + v mod 10 = v
  /\ (v = hp \/ v = d)
  /\ (getPin hw PB7 = LOW \/ getPin hw PB6 = LOW -> v = hp)
  /\ (hp - 10 <= d <= hp + 10 -> v = hp).
Proof.
  intros E Hs v hp d.
  destruct (mainLoop_ok_display hw s E) as (D & _).
  destruct (SleepState_eqb (sleep_of hw s) DEEPSLEEP) eqn:Hd;
    [apply SleepState_eqb_eq in Hd; contradiction|].
  split; [exact D|].
  pose proof (shown_of_range hw s) as R.
  destruct (decimal_digits (shown_of hw s) ltac:(lia)) as (_ & _ & _ & S).
  split; [exact S|].
  unfold hp. rewrite eeprom_mainLoop_ok by assumption.
  pose proof (heatPoint_after_validity hw s) as V.
  unfold MIN_HEAT, MAX_HEAT in V.
  unfold v, d, shown_of, shows_heatPoint, tempInRange_of.
  split; [destruct (_ || _ || _); auto|].
  split.
  - intros Hp. rewrite action_of_zero.
    assert ((getPin hw PB7 =? LOW) || (getPin hw PB6 =? LOW) = true) as A.
    { apply orb_true_iff. destruct Hp as [Hp|Hp]; [left|right];
        apply Z.eqb_eq; exact Hp. }
    rewrite A. reflexivity.
  - intros Hr. cbv zeta.
    rewrite !uint16_small by lia.
    assert ((displayVal_of (adcVal_of hw s) >=?
             heatPoint (_eepromData (after_validity hw s)) - 10)
            && (displayVal_of (adcVal_of hw s) <=?
                heatPoint (_eepromData (after_validity hw s)) + 10) = true) as T.
    { apply andb_true_iff. split; [apply Z.geb_le | apply Z.leb_le]; lia. }
    rewrite T, orb_true_r. reflexivity.
Qed.

End ExtrasC.

Lemma shown_value_witness :
  digits (trace (mainLoop (sample 9000 100 HIGH HIGH LOW)
                   (set_oldADCVal 100 power_on)))
  = [(0, 2); (1, 7); (2, 0)].
Proof.
  destruct (shown_value (sample 9000 100 HIGH HIGH LOW)
              (set_oldADCVal 100 power_on)) as (A & _);
    [reflexivity | vm_compute; discriminate |].
  exact A.
Defined.

(** ** Configuration record *)

Lemma timeouts_set_heatPoint v d :
  sleepTimeout (set_heatPoint v d) = sleepTimeout d
  /\ deepSleepTimeout (set_heatPoint v d) = deepSleepTimeout d.
Proof. split; reflexivity. Qed.

Lemma timeouts_pass_step l7 l6 t e :
  sleepTimeout (ed_eepromData (pass_step l7 l6 t e)) = sleepTimeout (ed_eepromData e)
  /\ deepSleepTimeout (ed_eepromData (pass_step l7 l6 t e))
     = deepSleepTimeout (ed_eepromData e).
Proof.
  unfold pass_step, edit_step. rewrite save_step_eeprom.
  assert (forall e', sleepTimeout (ed_eepromData (validity_step e'))
                     = sleepTimeout (ed_eepromData e')
                     /\ deepSleepTimeout (ed_eepromData (validity_step e'))
                        = deepSleepTimeout (ed_eepromData e')) as V.
  { intros e'. unfold validity_step. repeat case_if; split; reflexivity. }
  assert (forall l i e', sleepTimeout (ed_eepromData (button_step l i t e'))
                         = sleepTimeout (ed_eepromData e')
                         /\ deepSleepTimeout (ed_eepromData (button_step l i t e'))
                            = deepSleepTimeout (ed_eepromData e')) as B.
  { intros l i e'. rewrite button_step_eeprom.
    destruct (edits _); split; reflexivity. }
  destruct (V (release_step l7 l6
                 (button_step l6 (-1) t (button_step l7 1 t e)))) as [V1 V2].
  rewrite V1, V2, release_step_eeprom.
  destruct (B l6 (-1) (button_step l7 1 t e)) as [B1 B2].
  destruct (B l7 1 e) as [B3 B4].
  rewrite B1, B2, B3, B4. split; reflexivity.
Qed.

(** The setpoint after the two [checkButton] calls and the validity
    check, from a valid setpoint. *)
Lemma heatPoint_edit_step l7 l6 t e :
  MIN_HEAT <= heatPoint (ed_eepromData e) <= MAX_HEAT ->
  let hp := heatPoint (ed_eepromData e) in
  let hp' := heatPoint (ed_eepromData (edit_step l7 l6 t e)) in
  hp - 1 <= hp' <= hp + 1
  /\ ((l6 =? LOW) = false -> hp <= hp')
  /\ ((l7 =? LOW) = false -> hp' <= hp).
Proof.
  intros R hp hp'. unfold hp', edit_step.
  unfold MIN_HEAT, MAX_HEAT in R.
  set (e1 := button_step l7 1 t e).
  set (e2 := button_step l6 (-1) t e1).
  assert (heatPoint (ed_eepromData e1) = hp
          \/ (heatPoint (ed_eepromData e1) = hp + 1 /\ (l7 =? LOW) = true)) as H1.
  { unfold e1. rewrite button_step_eeprom. unfold branch_of.
    destruct (l7 =? LOW); [|left; reflexivity].
    destruct (edits _); [right|left; reflexivity].
    cbn [edited set_heatPoint heatPoint]. fold hp.
    rewrite uint16_small by (unfold hp; lia). auto. }
  assert (heatPoint (ed_eepromData e2) = heatPoint (ed_eepromData e1)
          \/ (heatPoint (ed_eepromData e2) = heatPoint (ed_eepromData e1) - 1
              /\ (l6 =? LOW) = true)) as H2.
  { unfold e2. rewrite button_step_eeprom. unfold branch_of.
    destruct (l6 =? LOW); [|left; reflexivity].
    destruct (edits _); [right|left; reflexivity].
    cbn [edited set_heatPoint heatPoint].
    rewrite uint16_small by (unfold hp in H1; lia). split; [lia|reflexivity]. }
  assert (heatPoint (ed_eepromData (release_step l7 l6 e2))
          = heatPoint (ed_eepromData e2)) as H3
    by (rewrite release_step_eeprom; reflexivity).
  unfold validity_step, MIN_HEAT, MAX_HEAT. rewrite H3.
  destruct (Z.gtb_spec (heatPoint (ed_eepromData e2)) 450);
    [|destruct (Z.ltb_spec (heatPoint (ed_eepromData e2)) 50)];
    cbn [with_heatPoint ed_eepromData set_heatPoint heatPoint];
    rewrite ?H3; unfold hp in *;
    repeat split; intros; try lia;
    destruct H1 as [H1|[H1 L7]], H2 as [H2|[H2 L6]]; try congruence; lia.
Qed.

Section ExtrasD.

Context {symbols : S7C_symbols}.

Lemma pass_keeps_configuration hw s :
  sleepTimeout (_eepromData (final (mainLoop hw s))) = sleepTimeout (_eepromData s)
  /\ deepSleepTimeout (_eepromData (final (mainLoop hw s)))
     = deepSleepTimeout (_eepromData s)
  /\ (valid_heatPoint (_eepromData s) ->
      valid_heatPoint (_eepromData (final (mainLoop hw s))))
  /\ Forall valid_heatPoint (writes (trace (mainLoop hw s)))
  /\ (List.length (writes (trace (mainLoop hw s))) <= 1)%nat.
Proof.
  destruct (Z.eq_dec (error_of (adcVal_of hw s)) 0) as [E|E].
  - pose proof (f_equal ed_eepromData (editor_mainLoop_ok hw s E)) as Ee.
    change (ed_eepromData (editor_of (final (mainLoop hw s))))
      with (_eepromData (final (mainLoop hw s))) in Ee.
    destruct (timeouts_pass_step (getPin hw PB7) (getPin hw PB6) (nowTime_of hw)
                (editor_of s)) as [T1 T2].
    rewrite <- Ee in T1, T2.
    destruct (pass_summary hw s E) as (_ & S2 & S3 & _).
    split; [exact T1|]. split; [exact T2|]. split; [intros _; exact S3|].
    rewrite S2. destruct (_ && _); cbn [List.length]; split;
      [constructor; [exact S3 | constructor] | lia | constructor | lia].
  - rewrite mainLoop_fault by assumption. cbn [final trace fst snd writes].
    split; [reflexivity|]. split; [reflexivity|].
    split; [intros H; exact H|]. split; [constructor | cbn; lia].
Qed.

(** X9. Whatever the inputs, faults included, a run of the loop never
    changes [sleepTimeout] or [deepSleepTimeout], and a setpoint inside
    [MIN_HEAT, MAX_HEAT] stays inside it after every number of passes. *)
Theorem configuration_invariant (hws : list input) (s : state) :
  sleepTimeout (_eepromData (final (mainLoops hws s))) = sleepTimeout (_eepromData s)
  /\ deepSleepTimeout (_eepromData (final (mainLoops hws s)))
     = deepSleepTimeout (_eepromData s)
  /\ (valid_heatPoint (_eepromData s) ->
      valid_heatPoint (_eepromData (final (mainLoops hws s)))).
Proof.
  revert s. induction hws as [|hw hws IH]; intros s.
  - split; [reflexivity|]. split; [reflexivity|]. intros V; exact V.
  - rewrite final_mainLoops_cons.
    destruct (pass_keeps_configuration hw s) as (T1 & T2 & V & _).
    destruct (IH (final (mainLoop hw s))) as (I1 & I2 & I3).
    rewrite I1, I2, T1, T2. split; [reflexivity|]. split; [reflexivity|].
    intros V0. apply I3, V, V0.
Qed.

Lemma writes_valid_run hws : forall s,
  Forall valid_heatPoint (writes (trace (mainLoops hws s))).
Proof.
  induction hws as [|hw hws IH]; intros s; [constructor|].
  rewrite trace_mainLoops_cons, writes_app. apply Forall_app. split.
  - apply (pass_keeps_configuration hw s).
  - apply IH.
Qed.

Lemma setup_writes millis stored s :
  writes (trace (setup millis stored s)) =
  if heatPoint stored =? 0
  then [{| heatPoint := 270; sleepTimeout := 180000; deepSleepTimeout := 600000 |}]
  else [].
Proof.
  unfold setup.
  lazy beta iota zeta delta [bind get modify emit ret when final result trace
                             fst snd].
  destruct (heatPoint stored =? 0); reflexivity.
Qed.

(** X10. Every record that [main] hands to [eeprom_write], at start-up or
    in any pass, has its setpoint inside [MIN_HEAT, MAX_HEAT], whatever
    the EEPROM held and whatever the inputs; and one pass writes at most
    one record. *)
Theorem written_records_valid (millis : Z) (stored : EEPROM_DATA)
    (hws : list input) (s : state) :
  Forall valid_heatPoint (writes (trace (main millis stored hws s)))
  /\ forall (hw : input) (s' : state),
       (List.length (writes (trace (mainLoop hw s'))) <= 1)%nat.
Proof.
  split.
  - unfold main. rewrite trace_bind, writes_app. apply Forall_app. split.
    + rewrite setup_writes. destruct (heatPoint stored =? 0); repeat constructor;
        unfold valid_heatPoint, MIN_HEAT, MAX_HEAT; cbn; lia.
    + apply writes_valid_run.
  - intros hw s'. apply (pass_keeps_configuration hw s').
Qed.

(** ** Setpoint editing *)

(** X11. A pass without fault moves a valid setpoint by at most one step;
    it does not lower it while PB6 (minus) is up and does not raise it
    while PB7 (plus) is up. *)
Theorem heatPoint_step_bound (hw : input) (s : state) :
  error_of (adcVal_of hw s) = 0 ->
  valid_heatPoint (_eepromData s) ->
  let hp := heatPoint (_eepromData s) in
  let hp' := heatPoint (_eepromData (final (mainLoop hw s))) in
  hp - 1 <= hp' <= hp + 1
  /\ (getPin hw PB6 <> LOW -> hp <= hp')
  /\ (getPin hw PB7 <> LOW -> hp' <= hp).
Proof.
  intros E V hp hp'.
  pose proof (f_equal ed_eepromData (editor_mainLoop_ok hw s E)) as Ee.
  change (ed_eepromData (editor_of (final (mainLoop hw s))))
    with (_eepromData (final (mainLoop hw s))) in Ee.
  unfold pass_step in Ee. rewrite save_step_eeprom in Ee.
  destruct (heatPoint_edit_step (getPin hw PB7) (getPin hw PB6) (nowTime_of hw)
              (editor_of s) V) as (A & B & C).
  unfold hp'. rewrite Ee.
  split; [exact A|]. split; intros H; [apply B | apply C];
    apply Z.eqb_neq; exact H.
Qed.

(** X12. Auto-repeat.  In a pass without fault with one button down, the
    other up, both press timers running and more than LONG_PRESS since
    the long-press timer: the timers are kept, [beep] is not called and
    the repeat counter advances by one modulo 256.  If the old counter is
    a multiple of FAST_INCREMENT = 40 a valid setpoint moves one step,
    clamped to [MIN_HEAT, MAX_HEAT], and the pending-save stamp becomes
    the counter reading of the pass; otherwise the record is unchanged. *)
Theorem auto_repeat_pass (button : pin) (hw : input) (s : state) :
  error_of (adcVal_of hw s) = 0 ->
  only_held button hw = true ->
  _buttonTimer s <> 0 -> _longPressTimer s <> 0 ->
  uint32 (nowTime_of hw - _longPressTimer s) > LONG_PRESS ->
  valid_heatPoint (_eepromData s) ->
  let s' := final (mainLoop hw s) in
  skipCounter s' = uint8 (skipCounter s + 1)
  /\ _buttonTimer s' = _buttonTimer s
  /\ _longPressTimer s' = _longPressTimer s
  /\ beeps (trace (mainLoop hw s)) = 0%nat
  /\ (skipCounter s mod FAST_INCREMENT = 0 ->
      heatPoint (_eepromData s') =
        Z.max MIN_HEAT
          (Z.min MAX_HEAT (heatPoint (_eepromData s) + increment_of button))
      /\ _haveToSaveData s' = nowTime_of hw)
  /\ (skipCounter s mod FAST_INCREMENT <> 0 -> _eepromData s' = _eepromData s).
Proof.
  intros E Hh Hb Hl Hlong V s'.
  destruct (held_pass button hw s E Hh) as [Ed Bp].
  assert (armed_buttonTimer (nowTime_of hw) (editor_of s) = _buttonTimer s) as Ab
    by (apply armed_buttonTimer_set; exact Hb).
  assert (armed_longPressTimer (nowTime_of hw) (editor_of s) = _longPressTimer s)
    as Al by (apply armed_longPressTimer_set; exact Hl).
  assert (increment_of button = 1 \/ increment_of button = -1) as Hi
    by (destruct button; try discriminate Hh; cbn; auto).
  unfold valid_heatPoint, MIN_HEAT, MAX_HEAT in V.
  pose proof (nowTime_of_range hw) as Hr.
  apply Z.gtb_gt in Hlong.
  change (skipCounter s' = uint8 (skipCounter s + 1))
    with (ed_skipCounter (editor_of s') = uint8 (skipCounter s + 1)).
  change (_buttonTimer s') with (ed_buttonTimer (editor_of s')).
  change (_longPressTimer s') with (ed_longPressTimer (editor_of s')).
  change (_eepromData s') with (ed_eepromData (editor_of s')).
  change (_haveToSaveData s') with (ed_haveToSaveData (editor_of s')).
  unfold s'. rewrite Ed, Bp.
  unfold button_step, branch_of. cbn [LOW Z.eqb]. rewrite Al, Ab, Hlong.
  cbn [editor_of ed_skipCounter].
  destruct (Z.eqb_spec (skipCounter s mod FAST_INCREMENT) 0) as [Hm|Hm].
  - (* the setpoint moves *)
    cbn [editor_of ed_eepromData ed_haveToSaveData]. unfold edited.
    rewrite (uint16_small (heatPoint (_eepromData s) + increment_of button))
      by lia.
    assert (save_due (nowTime_of hw)
              (validity_step
                 {| ed_buttonTimer := _buttonTimer s;
                    ed_longPressTimer := _longPressTimer s;
                    ed_haveToSaveData := nowTime_of hw;
                    ed_eepromData :=
                      set_heatPoint
                        (heatPoint (_eepromData s) + increment_of button)
                        (_eepromData s);
                    ed_skipCounter := uint8 (skipCounter s + 1) |}) = false) as Nd.
    { unfold save_due. rewrite validity_step_stamp.
      cbn [ed_haveToSaveData]. rewrite Z.sub_diag.
      apply andb_false_iff. right. reflexivity. }
    rewrite save_step_not_due by exact Nd.
    rewrite validity_step_stamp.
    unfold validity_step, MIN_HEAT, MAX_HEAT.
    cbn [ed_eepromData set_heatPoint heatPoint].
    destruct (Z.gtb_spec (heatPoint (_eepromData s) + increment_of button) 450);
      [|destruct (Z.ltb_spec (heatPoint (_eepromData s) + increment_of button) 50)];
      cbn [with_heatPoint ed_skipCounter ed_buttonTimer ed_longPressTimer
           ed_eepromData ed_haveToSaveData set_heatPoint heatPoint];
      repeat split; intros; try congruence; lia.
  - cbn [editor_of ed_eepromData ed_haveToSaveData].
    rewrite validity_step_in_range
      by (cbn [ed_eepromData]; unfold MIN_HEAT, MAX_HEAT; exact V).
    destruct (save_step_frame (nowTime_of hw)
                {| ed_buttonTimer := _buttonTimer s;
                   ed_longPressTimer := _longPressTimer s;
                   ed_haveToSaveData := _haveToSaveData s;
                   ed_eepromData := _eepromData s;
                   ed_skipCounter := uint8 (skipCounter s + 1) |})
      as (F1 & F2 & F3).
    rewrite F1, F2, F3.
    assert (ed_skipCounter
              (save_step (nowTime_of hw)
                 {| ed_buttonTimer := _buttonTimer s;
                    ed_longPressTimer := _longPressTimer s;
                    ed_haveToSaveData := _haveToSaveData s;
                    ed_eepromData := _eepromData s;
                    ed_skipCounter := uint8 (skipCounter s + 1) |})
            = uint8 (skipCounter s + 1)) as F4
      by (unfold save_step; destruct (save_due _ _); reflexivity).
    rewrite F4. cbn [ed_buttonTimer ed_longPressTimer ed_eepromData editor_of].
    repeat split; intros; congruence.
Qed.

End ExtrasD.

Lemma configuration_invariant_witness :
  valid_heatPoint
    (_eepromData (final (mainLoops (press_plus 1000 800) (set_oldADCVal 100 power_on)))).
Proof.
  apply (configuration_invariant (press_plus 1000 800) (set_oldADCVal 100 power_on)).
  unfold valid_heatPoint. vm_compute. split; discriminate.
Defined.

Lemma heatPoint_step_bound_witness :
  heatPoint (_eepromData (set_oldADCVal 100 power_on)) <=
  heatPoint (_eepromData (final (mainLoop (sample 0 100 HIGH HIGH LOW)
                                   (held_since 4294966595)))).
Proof.
  destruct (heatPoint_step_bound (sample 0 100 HIGH HIGH LOW)
              (held_since 4294966595)) as (_ & A & _);
    [reflexivity | unfold valid_heatPoint; vm_compute; split; discriminate |].
  apply A. vm_compute. discriminate.
Defined.

Lemma auto_repeat_pass_witness :
  skipCounter (final (mainLoop (sample 3000 100 HIGH HIGH LOW) (held_since 1000))) = 1
  /\ heatPoint (_eepromData (final (mainLoop (sample 3000 100 HIGH HIGH LOW)
                                      (held_since 1000)))) = 271.
Proof.
  destruct (auto_repeat_pass PB7 (sample 3000 100 HIGH HIGH LOW) (held_since 1000))
    as (A & _ & _ & _ & B & _);
    try reflexivity; try (vm_compute; discriminate);
    try (unfold valid_heatPoint; vm_compute; split; discriminate).
  split; [exact A|]. apply (proj1 (B eq_refl)).
Defined.
